(** * Starboyleague: the FotMob batch relay of [server.js]

    A shallow embedding of [toFantasyStat] and of the handler of
    [POST /api/fotmob/player-stats-batch], with the properties of the
    written specification stated and settled against it.

    Values are the JSON-like values of JavaScript.  Numbers are the
    integer-valued doubles and [NaN]; a difference is rounded to the
    nearest double, which is the exact difference as long as that stays
    within 2^53 in absolute value.  Fractional and infinite doubles are
    left out of the model.  Values carry no functions, accessors or
    symbols: the provider's answers and the request body are data. *)

From Stdlib Require Import ZArith String Ascii List Bool DecimalString.
From stdpp Require Import gmap strings list fin_maps.

Set Default Proof Using "Type".
Set Warnings "-register-all,-clear-no-such-hyp".
Local Open Scope string_scope.
Local Open Scope Z_scope.

(** ** Values *)

Inductive number : Type :=
| Int (z : Z)
| NaN.

Inductive JsVal : Type :=
| JUndefined
| JNull
| JBool (b : bool)
| JNum (n : number)
| JStr (s : string)
| JArr (items : list JsVal)
| JObj (props : list (string * JsVal)).

(** The result of evaluating an expression: a value, or a thrown value
    (anything can be thrown in JavaScript, [undefined] included). *)
Inductive outcome (A : Type) : Type :=
| Ok (a : A)
| Throw (e : JsVal).
Arguments Ok {A} a.
Arguments Throw {A} e.

Definition obind {A B} (m : outcome A) (k : A -> outcome B) : outcome B :=
  match m with
  | Ok a => k a
  | Throw e => Throw e
  end.

Notation "'let*' x ':=' m 'in' k" := (obind m (fun x => k))
  (at level 10, x name, m at level 100, k at level 200).

(** A [TypeError] as the engine throws it: an object with a [message]. *)
Definition TypeError (msg : string) : JsVal :=
  JObj [("message", JStr msg)].

(** ** Coercions of the language *)

Definition nullish (v : JsVal) : bool :=
  match v with
  | JUndefined | JNull => true
  | _ => false
  end.

(** ToBoolean. *)
Definition truthy (v : JsVal) : bool :=
  match v with
  | JUndefined | JNull => false
  | JBool b => b
  | JNum (Int z) => negb (z =? 0)
  | JNum NaN => false
  | JStr s => negb (String.eqb s EmptyString)
  | JArr _ | JObj _ => true
  end.

(** [a || b], the right operand already evaluated (every right operand of
    [||] in [server.js] is free of effects and cannot throw). *)
Definition js_or (a b : JsVal) : JsVal := if truthy a then a else b.

Fixpoint assoc (k : string) (props : list (string * JsVal)) : option JsVal :=
  match props with
  | [] => None
  | (k', v) :: rest => if String.eqb k k' then Some v else assoc k rest
  end.

Definition number_to_string (n : number) : string :=
  match n with
  | Int z => NilZero.string_of_int (Z.to_int z)
  | NaN => "NaN"
  end.

Definition str_length (s : string) : Z := Z.of_nat (String.length s).

(** [v.key] for a key that is an identifier of the source.  None of the
    identifiers [server.js] reads from data ([stats], [minutes], [id],
    ...) names a method of a built-in prototype, so on a primitive or an
    array only [length] resolves; [find] is modelled apart. *)
Definition get_member (v : JsVal) (key : string) : outcome JsVal :=
  match v with
  | JUndefined | JNull =>
      Throw (TypeError ("Cannot read properties of null or undefined (reading " ++ key ++ ")"))
  | JBool _ | JNum _ => Ok JUndefined
  | JStr s => Ok (if String.eqb key "length" then JNum (Int (str_length s)) else JUndefined)
  | JArr items =>
      Ok (if String.eqb key "length" then JNum (Int (Z.of_nat (List.length items))) else JUndefined)
  | JObj props => Ok (default JUndefined (assoc key props))
  end.

(** [v?.key]. *)
Definition opt_member (v : JsVal) (key : string) : outcome JsVal :=
  if nullish v then Ok JUndefined else get_member v key.

(** [v?.k1?.k2]. *)
Definition opt_path (v : JsVal) (k1 k2 : string) : outcome JsVal :=
  let* a := opt_member v k1 in opt_member a k2.

(** [v[i]] for a numeric index. *)
Definition get_index (v : JsVal) (i : nat) : outcome JsVal :=
  match v with
  | JUndefined | JNull => Throw (TypeError "Cannot read properties of null or undefined")
  | JBool _ | JNum _ => Ok JUndefined
  | JStr s =>
      Ok (match String.get i s with
          | Some c => JStr (String c EmptyString)
          | None => JUndefined
          end)
  | JArr items => Ok (nth i items JUndefined)
  | JObj props => Ok (default JUndefined (assoc (number_to_string (Int (Z.of_nat i))) props))
  end.

Fixpoint join_strings (l : list string) : string :=
  match l with
  | [] => EmptyString
  | [s] => s
  | s :: rest => s ++ "," ++ join_strings rest
  end.

(** The string of a value, or [None] where OrdinaryToPrimitive throws.
    A data object inherits [Object.prototype.toString] unless it has an
    own [toString] property, which in data is never callable: then no
    method yields a primitive.  An array joins the strings of its
    elements, with nothing for [undefined] and [null]. *)
Fixpoint primitive_string (v : JsVal) : option string :=
  match v with
  | JUndefined => Some "undefined"
  | JNull => Some "null"
  | JBool true => Some "true"
  | JBool false => Some "false"
  | JNum n => Some (number_to_string n)
  | JStr s => Some s
  | JArr items =>
      (fix parts (l : list JsVal) : option (list string) :=
         match l with
         | [] => Some []
         | x :: rest =>
             match (if nullish x then Some EmptyString else primitive_string x), parts rest with
             | Some s, Some r => Some (s :: r)
             | _, _ => None
             end
         end) items
      ≫= fun l => Some (join_strings l)
  | JObj props =>
      match assoc "toString" props with
      | Some _ => None
      | None => Some "[object Object]"
      end
  end.

(** ToString, which is also ToPropertyKey on these values. *)
Definition to_string (v : JsVal) : outcome string :=
  match primitive_string v with
  | Some s => Ok s
  | None => Throw (TypeError "Cannot convert object to primitive value")
  end.

Section Runtime.

(** StringToNumber of the runtime, restricted to the numbers of the model.
    No property below depends on what it returns. *)
Variable StringToNumber : string -> number.

(** ToNumber. *)
Definition to_number (v : JsVal) : outcome number :=
  match v with
  | JUndefined => Ok NaN
  | JNull => Ok (Int 0)
  | JBool b => Ok (Int (if b then 1 else 0))
  | JNum n => Ok n
  | JStr s => Ok (StringToNumber s)
  | JArr _ | JObj _ => let* s := to_string v in Ok (StringToNumber s)
  end.

(** 2^53: up to it every integer is a double. *)
Definition two53 : Z := 9007199254740992.

(** The double nearest to an integer: the integer itself up to 2^53 in
    absolute value; beyond, the 53 leading bits are kept and the rest is
    rounded to nearest, a tie going to the even significand.  (A result
    past the largest double would be an infinity, which the model leaves
    out with the other infinite values.) *)
Definition round_double (z : Z) : Z :=
  if Z.abs z <=? two53 then z
  else
    let e := Z.log2 (Z.abs z) - 52 in
    let q := Z.shiftr (Z.abs z) e in
    let r := Z.abs z - Z.shiftl q e in
    let half := Z.shiftl 1 (e - 1) in
    let q' := if (half <? r) || ((r =? half) && Z.odd q) then q + 1 else q in
    Z.sgn z * Z.shiftl q' e.

(** The difference of two numbers, rounded as the doubles are. *)
Definition num_sub (a b : number) : number :=
  match a, b with
  | Int x, Int y => Int (round_double (x - y))
  | _, _ => NaN
  end.

(** [a - b]: both operands are converted, left first. *)
Definition js_sub (a b : JsVal) : outcome JsVal :=
  let* x := to_number a in
  let* y := to_number b in
  Ok (JNum (num_sub x y)).

(** [Math.max(0, v)]. *)
Definition math_max0 (v : JsVal) : outcome JsVal :=
  let* x := to_number v in
  Ok (JNum (match x with Int z => Int (Z.max 0 z) | NaN => NaN end)).

(** ** The normalizer *)

Record FantasyStat : Type := mkStat {
  name : JsVal;
  nonPenaltyGoals : JsVal;
  penaltyGoals : JsVal;
  assists : JsVal;
  minutes : JsVal;
  yellowCards : JsVal;
  redCards : JsVal;
  motm : JsVal
}.

(** [fm?.ns1?.k1 || fm?.ns2?.k2 || 0], the shape of lines 18 to 23. *)
Definition pick (fm : JsVal) (ns1 k1 ns2 k2 : string) : outcome JsVal :=
  let* a := opt_path fm ns1 k1 in
  let* b := opt_path fm ns2 k2 in
  Ok (js_or (js_or a b) (JNum (Int 0))).

Definition toFantasyStat (name fm : JsVal) : outcome FantasyStat :=
  let* minutes := pick fm "stats" "minutes" "games" "minutes" in
  let* goalsTotal := pick fm "stats" "goals" "goals" "total" in
  let* pens := pick fm "stats" "penaltiesScored" "penalty" "scored" in
  let* assists := pick fm "stats" "assists" "goals" "assists" in
  let* yellow := pick fm "stats" "yellow" "cards" "yellow" in
  let* red := pick fm "stats" "red" "cards" "red" in
  let* diff := js_sub goalsTotal pens in
  let* npg := math_max0 diff in
  Ok {| name := name;
        nonPenaltyGoals := npg;
        penaltyGoals := js_or pens (JNum (Int 0));
        assists := js_or assists (JNum (Int 0));
        minutes := minutes;
        yellowCards := js_or yellow (JNum (Int 0));
        redCards := js_or red (JNum (Int 0));
        motm := JBool false |}.

End Runtime.

(** ** The provider and the effects of a request *)

(** The two operations of the FotMob client.  A call answers with a value
    or throws, and may change the provider's own state [S]. *)
Record Provider (S : Type) : Type := mkProvider {
  search : JsVal -> S -> outcome JsVal * S;
  player : JsVal -> S -> outcome JsVal * S
}.
Arguments search {S} _ _ _.
Arguments player {S} _ _ _.

Inductive Call : Type :=
| CallSearch (arg : JsVal)
| CallPlayer (arg : JsVal).

Record World (S : Type) : Type := mkWorld {
  pstate : S;
  calls : list Call
}.
Arguments mkWorld {S} _ _.
Arguments pstate {S} _.
Arguments calls {S} _.

(** A computation that reads and changes the world and may throw; what
    was done before a throw stays done. *)
Definition M (S A : Type) : Type := World S -> outcome A * World S.

Definition ret {S A} (a : A) : M S A := fun w => (Ok a, w).

Definition bind {S A B} (m : M S A) (k : A -> M S B) : M S B :=
  fun w =>
    match m w with
    | (Ok a, w') => k a w'
    | (Throw e, w') => (Throw e, w')
    end.

Definition lift {S A} (o : outcome A) : M S A := fun w => (o, w).

Definition try_catch {S A} (m : M S A) (h : JsVal -> M S A) : M S A :=
  fun w =>
    match m w with
    | (Ok a, w') => (Ok a, w')
    | (Throw e, w') => h e w'
    end.

Notation "'let!' x ':=' m 'in' k" := (bind m (fun x => k))
  (at level 10, x name, m at level 100, k at level 200).

(** The object [out] of the handler: its own properties and its prototype
    ([None] stands for [Object.prototype]). *)
Record OutObj : Type := mkOut {
  own : gmap string FantasyStat;
  proto : option FantasyStat
}.

Definition empty_out : OutObj := {| own := ∅; proto := None |}.

(** [out[key] = v] for [v] an object.  The key is converted with
    ToPropertyKey.  The key [__proto__] reaches the accessor inherited
    from [Object.prototype], whose setter replaces the prototype of [out]
    and defines no own property; every other key is defined or
    overwritten on [out] itself. *)
Definition set_prop (out : OutObj) (key : JsVal) (v : FantasyStat) : outcome OutObj :=
  let* k := to_string key in
  Ok (if String.eqb k "__proto__"
      then {| own := own out; proto := Some v |}
      else {| own := <[k := v]> (own out); proto := proto out |}).

(** What [res.status(..).json(..)] sends.  [JSON.stringify] writes the
    own properties of [out] and nothing of its prototype. *)
Inductive Body : Type :=
| ErrorBody (error : string)
| StatsBody (stats : gmap string FantasyStat).

Record Response : Type := mkResponse {
  status : Z;
  body : Body
}.

(** [s.includes(sub)]. *)
Fixpoint includes (sub s : string) : bool :=
  String.prefix sub s ||
  match s with
  | EmptyString => false
  | String _ rest => includes sub rest
  end.

Section Handler.

Context {S : Type}.
Variable fotmob : Provider S.
Variable StringToNumber : string -> number.

Definition call_search (arg : JsVal) : M S JsVal :=
  fun w =>
    let (r, s') := search fotmob arg (pstate w) in
    (r, {| pstate := s'; calls := calls w ++ [CallSearch arg] |}).

Definition call_player (arg : JsVal) : M S JsVal :=
  fun w =>
    let (r, s') := player fotmob arg (pstate w) in
    (r, {| pstate := s'; calls := calls w ++ [CallPlayer arg] |}).

(** [(results?.players && results.players[0]) || null]. *)
Definition best_of (results : JsVal) : outcome JsVal :=
  let* p := opt_member results "players" in
  if truthy p then
    let* p' := get_member results "players" in
    let* c := get_index p' 0 in
    Ok (js_or c JNull)
  else Ok JNull.

(** [s => String(s.season).includes('2025')]. *)
Definition season_matches (s : JsVal) : outcome bool :=
  let* season := get_member s "season" in
  let* label := to_string season in
  Ok (includes "2025" label).

(** [Array.prototype.find] with that callback. *)
Fixpoint find_season (items : list JsVal) : outcome JsVal :=
  match items with
  | [] => Ok JUndefined
  | s :: rest =>
      let* hit := season_matches s in
      if hit then Ok s else find_season rest
  end.

(** [pdata?.stats?.seasons?.find?.(...)]: an array has [find]; on
    anything else [find] is whatever the data holds, and calling a value
    that is not [undefined] or [null] throws, data holding no function. *)
Definition seasons_find (pdata : JsVal) : outcome JsVal :=
  let* seasons := opt_path pdata "stats" "seasons" in
  match seasons with
  | JArr items => find_season items
  | _ =>
      let* f := opt_member seasons "find" in
      if nullish f then Ok JUndefined
      else Throw (TypeError "find is not a function")
  end.

(** Line 44. *)
Definition seasonAgg (pdata : JsVal) : outcome JsVal :=
  let* found := seasons_find pdata in
  let* stats := opt_member pdata "stats" in
  Ok (js_or found stats).

(** Lines 38 to 45: the record that the [try] block assigns to
    [out[name]], on line 40 or on line 45. *)
Definition attempt (name : JsVal) : M S FantasyStat :=
  let! results := call_search name in
  let! best := lift (best_of results) in
  let! id := lift (opt_member best "id") in
  if negb (truthy id) then lift (toFantasyStat StringToNumber name JNull)
  else
    let! id' := lift (get_member best "id") in
    let! pdata := call_player id' in
    let! agg := lift (seasonAgg pdata) in
    lift (toFantasyStat StringToNumber name (js_or agg pdata)).

(** Lines 36 to 49.  The handler logs [e.message] before it stores the
    zero record. *)
Definition loop_body (name : JsVal) (out : OutObj) : M S OutObj :=
  try_catch
    (let! st := attempt name in lift (set_prop out name st))
    (fun e =>
       let! _ := lift (get_member e "message") in
       let! st := lift (toFantasyStat StringToNumber name JNull) in
       lift (set_prop out name st)).

Fixpoint for_of (names : list JsVal) (out : OutObj) : M S OutObj :=
  match names with
  | [] => ret out
  | name :: rest => let! out' := loop_body name out in for_of rest out'
  end.

(** Line 30. *)
Definition players_of (req_body : JsVal) : outcome (list JsVal) :=
  let* p := get_member req_body "players" in
  Ok (match p with JArr items => items | _ => [] end).

Definition handler_try (req_body : JsVal) : M S Response :=
  let! players := lift (players_of req_body) in
  if (List.length players =? 0)%nat
  then ret {| status := 400; body := ErrorBody "players array required" |}
  else
    let! out := for_of players empty_out in
    ret {| status := 200; body := StatsBody (own out) |}.

(** Lines 28 to 57. *)
Definition handler (req_body : JsVal) (w : World S) : Response * World S :=
  match handler_try req_body w with
  | (Ok r, w') => (r, w')
  | (Throw _, w') => ({| status := 500; body := ErrorBody "server_error" |}, w')
  end.

End Handler.

(** Line 12: [process.env.PORT || 3000].  A variable of the environment
    is a string, or is not set. *)
Definition PORT (env_PORT : option string) : JsVal :=
  js_or (match env_PORT with Some s => JStr s | None => JUndefined end) (JNum (Int 3000)).


(** ** Vocabulary of the properties *)

Definition num (z : Z) : JsVal := JNum (Int z).

(** The value at [fm?.ns?.k]; reading an optional path never throws
    ([opt_path_probe] below). *)
Definition probe (fm : JsVal) (ns k : string) : JsVal :=
  match opt_path fm ns k with
  | Ok v => v
  | Throw _ => JUndefined
  end.

(** The value a field falls back to. *)
Definition select (fm : JsVal) (ns1 k1 ns2 k2 : string) : JsVal :=
  js_or (js_or (probe fm ns1 k1) (probe fm ns2 k2)) (num 0).

Definition zero_stat (name : JsVal) : FantasyStat :=
  {| name := name;
     nonPenaltyGoals := num 0; penaltyGoals := num 0; assists := num 0;
     minutes := num 0; yellowCards := num 0; redCards := num 0;
     motm := JBool false |}.

Definition absent_or_int (v : JsVal) : Prop := v = JUndefined \/ exists z, v = num z.

Definition absent_or_nat (v : JsVal) : Prop := v = JUndefined \/ exists z, v = num z /\ 0 <= z.

Definition nonneg_int (v : JsVal) : Prop := exists z, v = num z /\ 0 <= z.

(** The paths that [toFantasyStat] reads: four for the goals, twelve in
    all. *)
Definition goal_paths : list (string * string) :=
  [("stats", "goals"); ("goals", "total"); ("stats", "penaltiesScored"); ("penalty", "scored")].

Definition probed_paths : list (string * string) :=
  goal_paths ++
  [("stats", "minutes"); ("games", "minutes"); ("stats", "assists"); ("goals", "assists");
   ("stats", "yellow"); ("cards", "yellow"); ("stats", "red"); ("cards", "red")].

Definition fields_satisfy (P : JsVal -> Prop) (paths : list (string * string)) (fm : JsVal) : Prop :=
  Forall (fun p => P (probe fm (fst p) (snd p))) paths.

(** A request body that names no player: reading [players] gives
    nothing, something that is not an array, or the empty array.
    ([express.json] always hands the handler an object as [req.body].) *)
Definition lacks_players (req_body : JsVal) : Prop :=
  exists p, get_member req_body "players" = Ok p /\
    (p = JUndefined \/ (forall items, p <> JArr items) \/ p = JArr []).



(** Whatever this outcome throws is a value, not [undefined] or [null].
    Every error that the language itself raises is one ([TypeError]). *)
Definition throws_error {A} (o : outcome A) : Prop :=
  forall e, o = Throw e -> nullish e = false.

(** [out[k] = st] for a string key. *)
Definition store (out : OutObj) (k : string) (st : FantasyStat) : OutObj :=
  if String.eqb k "__proto__"
  then {| own := own out; proto := Some st |}
  else {| own := <[k := st]> (own out); proto := proto out |}.

Definition store_all (l : list (string * FantasyStat)) (out : OutObj) : OutObj :=
  foldl (fun o p => store o (fst p) (snd p)) out l.

Section Turns.

Context {S : Type}.
Variable fotmob : Provider S.
Variable StringToNumber : string -> number.

(** The provider rejects with values: it never throws [undefined] or
    [null]. *)
Definition rejects_with_values : Prop :=
  forall arg s e s',
    search fotmob arg s = (Throw e, s') \/ player fotmob arg s = (Throw e, s') ->
    nullish e = false.

(** The record that one turn of the loop stores for a name: that of the
    [try] block, or the zero record when the block threw. *)
Definition settle (nm : JsVal) (w : World S) : FantasyStat * World S :=
  match attempt fotmob StringToNumber nm w with
  | (Ok st, w') => (st, w')
  | (Throw _, w') => (zero_stat nm, w')
  end.

Fixpoint settle_all (ks : list string) (w : World S) : list (string * FantasyStat) * World S :=
  match ks with
  | [] => ([], w)
  | k :: rest =>
      let (st, w') := settle (JStr k) w in
      let (l, w'') := settle_all rest w' in
      ((k, st) :: l, w'')
  end.

End Turns.

(** ** Inputs for the examples *)

(** StringToNumber on the decimal integer literals and the empty string;
    the examples convert no other string. *)
Definition decimal_literals (s : string) : number :=
  if String.eqb s "-" then NaN
  else match NilEmpty.int_of_string s with
       | Some d => Int (Z.of_int d)
       | None => NaN
       end.

Definition Error (msg : string) : JsVal := JObj [("message", JStr msg)].

Definition players_body (names : list string) : JsVal :=
  JObj [("players", JArr (JStr <$> names))].

(** A search answer with one candidate. *)
Definition candidate (id : JsVal) : JsVal :=
  JObj [("players", JArr [JObj [("id", id)]])].

Definition season_row (label : string) (stats : JsVal) : JsVal :=
  JObj [("season", JStr label); ("stats", stats)].

Definition haaland_stats : JsVal :=
  JObj [("goals", num 20); ("penaltiesScored", num 5); ("assists", num 3);
        ("minutes", num 1500); ("yellow", num 2); ("red", num 0)].

(** The blob of the specification's scenario, as [toFantasyStat] reads it. *)
Definition haaland_blob : JsVal := JObj [("stats", haaland_stats)].

Definition haaland_stat (nm : JsVal) : FantasyStat :=
  {| name := nm;
     nonPenaltyGoals := num 15; penaltyGoals := num 5; assists := num 3;
     minutes := num 1500; yellowCards := num 2; redCards := num 0;
     motm := JBool false |}.

(** Player data with two season rows; only the second is of 2025. *)
Definition haaland_pdata : JsVal :=
  JObj [("stats", JObj [("seasons",
     JArr [season_row "2023/2024" (JObj [("goals", num 27); ("minutes", num 2552)]);
           season_row "2025/2026" haaland_stats])])].

Definition is_str (s : string) (v : JsVal) : bool :=
  match v with
  | JStr s' => String.eqb s s'
  | _ => false
  end.

(** A provider without state: the search knows every name but one, and
    every player has the same data. *)
Definition fotmob_stub : Provider unit :=
  {| search := fun arg s =>
       (if is_str "Unknown Player XYZ" arg then Ok (JObj [("players", JArr [])])
        else Ok (candidate arg), s);
     player := fun id s => (Ok haaland_pdata, s) |}.

(** A provider whose second detail call fails; its state counts the
    detail calls. *)
Definition second_detail_fails : Provider nat :=
  {| search := fun arg n => (Ok (candidate arg), n);
     player := fun id n =>
       (if (n =? 1)%nat then Throw (Error "socket hang up") else Ok haaland_pdata, S n) |}.

(** A provider that rejects a search with no reason ([Promise.reject()]). *)
Definition rejects_undefined : Provider unit :=
  {| search := fun arg s => (Throw JUndefined, s);
     player := fun id s => (Ok haaland_pdata, s) |}.

(** A provider that answers one fixed blob for every player. *)
Definition always (pdata : JsVal) : Provider unit :=
  {| search := fun arg s => (Ok (candidate arg), s);
     player := fun id s => (Ok pdata, s) |}.

Definition idle {S} (s : S) : World S := {| pstate := s; calls := [] |}.

(** A provider with one answer to every search and one to every detail
    call. *)
Definition answers (results pdata : JsVal) : Provider unit :=
  {| search := fun arg s => (Ok results, s);
     player := fun id s => (Ok pdata, s) |}.


(** Both paths of the goals present, the first one zero. *)
Definition zero_stats_goals : JsVal :=
  JObj [("stats", JObj [("goals", num 0)]); ("goals", JObj [("total", num 7)])].


(** Goals that are an object with an own [toString]. *)
Definition unprintable_goals : JsVal :=
  JObj [("stats", JObj [("goals", JObj [("toString", num 1)])])].

Definition negative_minutes : JsVal :=
  JObj [("games", JObj [("minutes", num (-90))])].

(** ** Vocabulary of the further properties *)

(** The calls of one turn of the loop: the search for the name, then at
    most one detail call, for a truthy identifier. *)
Definition turn_calls (nm : JsVal) (seg : list Call) : Prop :=
  seg = [CallSearch nm] \/
  exists id, truthy id = true /\ seg = [CallSearch nm; CallPlayer id].

(** A provider whose answers do not depend on earlier calls. *)
Definition keeps_no_state {S} (fotmob : Provider S) : Prop :=
  forall arg s, snd (search fotmob arg s) = s /\ snd (player fotmob arg s) = s.

(** What a computation does to the world in one turn for a name: it
    appends the calls of the turn to the log, whatever the log held, and
    leaves the state of a provider that keeps none. *)
Definition one_turn {S A} (fotmob : Provider S) (nm : JsVal) (m : M S A) (s : S) : Prop :=
  exists r s' seg,
    turn_calls nm seg /\ (keeps_no_state fotmob -> s' = s) /\
    forall log, m (mkWorld s log) = (r, mkWorld s' (log ++ seg)).

(** The calls of a batch, turn by turn: one segment for each name of a
    prefix of the names, in their order. *)
Definition batch_calls (names : list JsVal) (segs : list (list Call)) : Prop :=
  Forall2 turn_calls (take (length segs) names) segs.

(** A record that the normalizer returned for a name with this key. *)
Definition normalized_for (stn : string -> number) (k : string) (st : FantasyStat) : Prop :=
  to_string (name st) = Ok k /\ exists fm, toFantasyStat stn (name st) fm = Ok st.

(** A blob that the handler hands to the normalizer: no blob (lines 40
    and 48), or [seasonAgg || pdata] for a detail answer [pdata] of the
    provider (line 45). *)
Definition handed_to_normalizer {S} (fotmob : Provider S) (fm : JsVal) : Prop :=
  fm = JNull \/
  exists id s pdata s' agg,
    player fotmob id s = (Ok pdata, s') /\ seasonAgg pdata = Ok agg /\ fm = js_or agg pdata.

(** A record that is the normalization, for its name, of a blob the
    handler handed over. *)
Definition normalized_blob {S} (fotmob : Provider S) (stn : string -> number)
    (st : FantasyStat) : Prop :=
  exists fm, handed_to_normalizer fotmob fm /\ toFantasyStat stn (name st) fm = Ok st.

(** The five members under which [toFantasyStat] looks for numbers. *)
Definition namespaces : list string := ["stats"; "games"; "goals"; "penalty"; "cards"].

(** An object none of whose namespaces is itself an object: its numbers,
    if any, lie at the top level. *)
Definition flat (props : list (string * JsVal)) : Prop :=
  Forall (fun ns => match assoc ns props with Some (JObj _) => False | _ => True end)
         namespaces.

Definition is_ok {A} (o : outcome A) : bool :=
  match o with
  | Ok _ => true
  | Throw _ => false
  end.

(** Player data whose seasons are the given rows. *)
Definition with_seasons (rows : list JsVal) : JsVal :=
  JObj [("stats", JObj [("seasons", JArr rows)])].

(** ** Reading paths and falling back *)

Lemma opt_member_ok v k : exists r, opt_member v k = Ok r.
Proof.
  unfold opt_member. destruct v; simpl; eauto.
Qed.

Lemma opt_path_probe fm ns k : opt_path fm ns k = Ok (probe fm ns k).
Proof.
  unfold probe, opt_path.
  destruct (opt_member_ok fm ns) as [a ->]. simpl.
  destruct (opt_member_ok a k) as [b ->]. reflexivity.
Qed.

Lemma pick_select fm ns1 k1 ns2 k2 : pick fm ns1 k1 ns2 k2 = Ok (select fm ns1 k1 ns2 k2).
Proof.
  unfold pick, select. rewrite !opt_path_probe. reflexivity.
Qed.

Lemma select_cases fm ns1 k1 ns2 k2 :
  select fm ns1 k1 ns2 k2 =
    if truthy (probe fm ns1 k1) then probe fm ns1 k1
    else if truthy (probe fm ns2 k2) then probe fm ns2 k2
    else num 0.
Proof.
  unfold select, js_or.
  destruct (truthy (probe fm ns1 k1)) eqn:Ha.
  - rewrite Ha. reflexivity.
  - destruct (truthy (probe fm ns2 k2)) eqn:Hb; rewrite ?Hb; reflexivity.
Qed.

Lemma select_truthy_or_zero fm ns1 k1 ns2 k2 :
  truthy (select fm ns1 k1 ns2 k2) = true \/ select fm ns1 k1 ns2 k2 = num 0.
Proof.
  rewrite select_cases.
  destruct (truthy (probe fm ns1 k1)) eqn:Ha; [by left|].
  destruct (truthy (probe fm ns2 k2)) eqn:Hb; [by left|by right].
Qed.

(** [x || 0] on a value already of the form [.. || 0]. *)
Lemma select_or_zero fm ns1 k1 ns2 k2 :
  js_or (select fm ns1 k1 ns2 k2) (num 0) = select fm ns1 k1 ns2 k2.
Proof.
  unfold js_or at 1.
  destruct (select_truthy_or_zero fm ns1 k1 ns2 k2) as [-> | ->]; reflexivity.
Qed.

Lemma select_int fm ns1 k1 ns2 k2 :
  absent_or_int (probe fm ns1 k1) -> absent_or_int (probe fm ns2 k2) ->
  exists z, select fm ns1 k1 ns2 k2 = num z.
Proof.
  intros Ha Hb. rewrite select_cases.
  destruct Ha as [-> | [a ->]]; destruct Hb as [-> | [b ->]]; simpl;
    repeat match goal with |- context [negb (?x =? 0)] => destruct (x =? 0) end;
    simpl; eauto.
Qed.

Lemma select_nat fm ns1 k1 ns2 k2 :
  absent_or_nat (probe fm ns1 k1) -> absent_or_nat (probe fm ns2 k2) ->
  nonneg_int (select fm ns1 k1 ns2 k2).
Proof.
  intros Ha Hb. rewrite select_cases. unfold nonneg_int.
  destruct Ha as [-> | [a [-> ?]]]; destruct Hb as [-> | [b [-> ?]]]; simpl;
    repeat match goal with |- context [negb (?x =? 0)] => destruct (x =? 0) end;
    simpl; eauto; try (exists 0; split; [reflexivity | lia]).
Qed.

(** Within 2^53 nothing is rounded. *)
Lemma round_double_exact z : Z.abs z <= two53 -> round_double z = z.
Proof.
  intros H. unfold round_double. destruct (Z.leb_spec (Z.abs z) two53); [reflexivity | lia].
Qed.

(** ** The normalizer, field by field *)

Section Normalizer.

Variable StringToNumber : string -> number.

(** [toFantasyStat] after its six fallbacks, which cannot throw: what is
    left to fail is the subtraction. *)
Lemma toFantasyStat_selects nm fm :
  toFantasyStat StringToNumber nm fm =
    let* diff := js_sub StringToNumber (select fm "stats" "goals" "goals" "total")
                        (select fm "stats" "penaltiesScored" "penalty" "scored") in
    let* npg := math_max0 StringToNumber diff in
    Ok {| name := nm;
          nonPenaltyGoals := npg;
          penaltyGoals := select fm "stats" "penaltiesScored" "penalty" "scored";
          assists := select fm "stats" "assists" "goals" "assists";
          minutes := select fm "stats" "minutes" "games" "minutes";
          yellowCards := select fm "stats" "yellow" "cards" "yellow";
          redCards := select fm "stats" "red" "cards" "red";
          motm := JBool false |}.
Proof.
  unfold toFantasyStat. rewrite !pick_select. simpl.
  fold (num 0). rewrite !select_or_zero. reflexivity.
Qed.

Lemma toFantasyStat_ints nm fm g p :
  select fm "stats" "goals" "goals" "total" = num g ->
  select fm "stats" "penaltiesScored" "penalty" "scored" = num p ->
  toFantasyStat StringToNumber nm fm =
    Ok {| name := nm;
          nonPenaltyGoals := num (Z.max 0 (round_double (g - p)));
          penaltyGoals := num p;
          assists := select fm "stats" "assists" "goals" "assists";
          minutes := select fm "stats" "minutes" "games" "minutes";
          yellowCards := select fm "stats" "yellow" "cards" "yellow";
          redCards := select fm "stats" "red" "cards" "red";
          motm := JBool false |}.
Proof.
  intros Hg Hp. rewrite toFantasyStat_selects, Hg, Hp. reflexivity.
Qed.

Lemma toFantasyStat_fields nm fm st :
  toFantasyStat StringToNumber nm fm = Ok st ->
  name st = nm /\ motm st = JBool false /\
  penaltyGoals st = select fm "stats" "penaltiesScored" "penalty" "scored" /\
  assists st = select fm "stats" "assists" "goals" "assists" /\
  minutes st = select fm "stats" "minutes" "games" "minutes" /\
  yellowCards st = select fm "stats" "yellow" "cards" "yellow" /\
  redCards st = select fm "stats" "red" "cards" "red".
Proof.
  rewrite toFantasyStat_selects.
  destruct (js_sub _ _ _) as [d | e]; simpl; [| discriminate].
  destruct (math_max0 _ d) as [npg | e]; simpl; [| discriminate].
  intros [= <-]. simpl. repeat split.
Qed.

Lemma toFantasyStat_null nm : toFantasyStat StringToNumber nm JNull = Ok (zero_stat nm).
Proof. reflexivity. Qed.

(** An empty object and every primitive are as good as no blob. *)
Lemma toFantasyStat_empty nm : toFantasyStat StringToNumber nm (JObj []) = Ok (zero_stat nm).
Proof. reflexivity. Qed.

Lemma toFantasyStat_primitive nm fm :
  match fm with JArr _ | JObj _ => False | _ => True end ->
  toFantasyStat StringToNumber nm fm = Ok (zero_stat nm).
Proof. destruct fm; simpl; intros H; try contradiction; reflexivity. Qed.

End Normalizer.

(** ** Errors raised by the handler's own code *)

Lemma throws_error_Ok {A} (a : A) : throws_error (Ok a).
Proof. intros e H. discriminate H. Qed.

Lemma throws_error_TypeError {A} msg : throws_error (@Throw A (TypeError msg)).
Proof. intros e H. injection H as <-. reflexivity. Qed.

Lemma throws_error_bind {A B} (m : outcome A) (k : A -> outcome B) :
  throws_error m -> (forall a, throws_error (k a)) -> throws_error (obind m k).
Proof.
  intros Hm Hk e. destruct m as [a | e']; simpl.
  - apply Hk.
  - intros H. injection H as <-. apply Hm. reflexivity.
Qed.

Lemma throws_error_if {A} (b : bool) (x y : outcome A) :
  throws_error x -> throws_error y -> throws_error (if b then x else y).
Proof. destruct b; auto. Qed.

Lemma get_member_throws v k : throws_error (get_member v k).
Proof.
  destruct v; simpl; first [apply throws_error_Ok | apply throws_error_TypeError].
Qed.

Lemma get_index_throws v i : throws_error (get_index v i).
Proof.
  destruct v; simpl; first [apply throws_error_Ok | apply throws_error_TypeError].
Qed.

Lemma opt_member_throws v k : throws_error (opt_member v k).
Proof.
  unfold opt_member. apply throws_error_if; [apply throws_error_Ok | apply get_member_throws].
Qed.

Lemma to_string_throws v : throws_error (to_string v).
Proof.
  unfold to_string. destruct (primitive_string v);
    [apply throws_error_Ok | apply throws_error_TypeError].
Qed.

Create HintDb throws.
#[local] Hint Resolve throws_error_Ok throws_error_TypeError get_member_throws
  get_index_throws opt_member_throws to_string_throws : throws.

Ltac throws :=
  repeat first
    [ apply throws_error_bind; [| intros ?]
    | apply throws_error_if
    | solve [auto with throws] ].

Lemma to_number_throws stn v : throws_error (to_number stn v).
Proof. destruct v; simpl; throws. Qed.

#[local] Hint Resolve to_number_throws : throws.

Lemma toFantasyStat_throws stn nm fm : throws_error (toFantasyStat stn nm fm).
Proof.
  rewrite toFantasyStat_selects. unfold js_sub, math_max0. throws.
Qed.

Lemma best_of_throws results : throws_error (best_of results).
Proof. unfold best_of. throws. Qed.

Lemma find_season_throws items : throws_error (find_season items).
Proof.
  induction items as [| s rest IH]; simpl; [throws|].
  unfold season_matches.
  apply throws_error_bind; [throws|]. intros [|]; [throws | exact IH].
Qed.

Lemma seasonAgg_throws pdata : throws_error (seasonAgg pdata).
Proof.
  unfold seasonAgg, seasons_find, opt_path. throws.
  match goal with |- throws_error (match ?x with _ => _ end) => destruct x end;
    first [apply find_season_throws | throws].
Qed.

(** ** Assignments to [out] *)

Lemma set_prop_string out k st : set_prop out (JStr k) st = Ok (store out k st).
Proof. reflexivity. Qed.

Lemma own_store_other out k st :
  k <> "__proto__" -> own (store out k st) = <[k := st]> (own out).
Proof.
  intros Hk. unfold store. destruct (String.eqb_spec k "__proto__"); [contradiction | reflexivity].
Qed.

Lemma store_all_dom l out :
  dom (own (store_all l out)) = dom (own out) ∪ (list_to_set (fst <$> l) ∖ {["__proto__"]}).
Proof.
  revert out. induction l as [| [k st] l IH]; intros out; simpl.
  - set_solver.
  - rewrite IH. unfold store. destruct (String.eqb_spec k "__proto__") as [-> | Hk]; simpl.
    + set_solver.
    + rewrite dom_insert_L. set_solver.
Qed.

(** Last write wins. *)
Lemma store_all_last l1 k st l2 out :
  k <> "__proto__" -> k ∉ fst <$> l2 ->
  own (store_all (l1 ++ (k, st) :: l2) out) !! k = Some st.
Proof.
  intros Hk Hnot. unfold store_all. rewrite foldl_app. simpl.
  fold (store_all l1 out).
  set (o := store (store_all l1 out) k st).
  assert (Ho : own o !! k = Some st).
  { unfold o. rewrite own_store_other by exact Hk. apply lookup_insert_eq. }
  clearbody o. revert o Ho. induction l2 as [| [k' st'] l2 IH]; intros o Ho; simpl; [exact Ho|].
  apply IH.
  - intros Hin. apply Hnot. simpl. right. exact Hin.
  - assert (k' <> k) by (intros ->; apply Hnot; simpl; left).
    unfold store. destruct (String.eqb k' "__proto__"); simpl; [exact Ho|].
    rewrite lookup_insert_ne; [exact Ho | done].
Qed.

(** ** The handler *)

Section HandlerFacts.

Context {S : Type}.
Variable fotmob : Provider S.
Variable StringToNumber : string -> number.

(** The handler reads nothing of the request but [players]. *)
Lemma handler_players b1 b2 w :
  players_of b1 = players_of b2 ->
  handler fotmob StringToNumber b1 w = handler fotmob StringToNumber b2 w.
Proof.
  intros H. unfold handler, handler_try, bind, lift. rewrite H. reflexivity.
Qed.

Lemma players_of_lacking req_body : lacks_players req_body -> players_of req_body = Ok [].
Proof.
  intros (p & Hp & Hcase). unfold players_of. rewrite Hp. simpl.
  destruct Hcase as [-> | [Hno | ->]]; try reflexivity.
  destruct p; try reflexivity. destruct (Hno items). reflexivity.
Qed.



Lemma settle_all_keys ks w : fst <$> fst (settle_all fotmob StringToNumber ks w) = ks.
Proof.
  revert w. induction ks as [| k rest IH]; intros w; simpl; [reflexivity|].
  destruct (settle fotmob StringToNumber (JStr k) w) as [st w']. specialize (IH w').
  destruct (settle_all fotmob StringToNumber rest w') as [l w'']. simpl in IH. simpl.
  f_equal. exact IH.
Qed.

Lemma attempt_throws nm w e w' :
  rejects_with_values fotmob ->
  attempt fotmob StringToNumber nm w = (Throw e, w') -> nullish e = false.
Proof.
  intros Hprov. unfold attempt, bind, call_search, call_player, lift.
  destruct (search fotmob nm (pstate w)) as [[results | e1] s1] eqn:Hs.
  2: { intros [= <- <-]. eapply Hprov. left. exact Hs. }
  destruct (best_of results) as [best | e2] eqn:Hb.
  2: { intros [= <- <-]. eapply best_of_throws. exact Hb. }
  destruct (opt_member best "id") as [id | e3] eqn:Hid.
  2: { intros [= <- <-]. eapply opt_member_throws. exact Hid. }
  destruct (truthy id); simpl.
  - destruct (get_member best "id") as [id' | e6] eqn:Hid'.
    2: { intros [= <- <-]. eapply get_member_throws. exact Hid'. }
    match goal with |- context [player fotmob ?a ?s] =>
      destruct (player fotmob a s) as [[pdata | e4] s2] eqn:Hp end.
    2: { intros [= <- <-]. eapply Hprov. right. exact Hp. }
    destruct (seasonAgg pdata) as [agg | e5] eqn:Ha.
    2: { intros [= <- <-]. eapply seasonAgg_throws. exact Ha. }
    intros [= H <-]. eapply toFantasyStat_throws. exact H.
  - rewrite toFantasyStat_null. discriminate.
Qed.

(** Against a provider that rejects with values, a turn for a string
    name always completes. *)
Lemma loop_body_string k out w :
  rejects_with_values fotmob ->
  loop_body fotmob StringToNumber (JStr k) out w =
    (Ok (store out k (fst (settle fotmob StringToNumber (JStr k) w))),
     snd (settle fotmob StringToNumber (JStr k) w)).
Proof.
  intros Hprov. unfold loop_body, try_catch, bind, lift, settle.
  destruct (attempt fotmob StringToNumber (JStr k) w) as [[st | e] w'] eqn:Ha; simpl.
  - reflexivity.
  - apply attempt_throws in Ha; [| exact Hprov].
    destruct e; try discriminate Ha; reflexivity.
Qed.

Lemma for_of_strings ks out w :
  rejects_with_values fotmob ->
  for_of fotmob StringToNumber (JStr <$> ks) out w =
    (Ok (store_all (fst (settle_all fotmob StringToNumber ks w)) out),
     snd (settle_all fotmob StringToNumber ks w)).
Proof.
  intros Hprov. revert out w. induction ks as [| k rest IH]; intros out w; simpl.
  - reflexivity.
  - unfold bind. rewrite loop_body_string by exact Hprov.
    destruct (settle fotmob StringToNumber (JStr k) w) as [st w']. simpl. rewrite IH.
    destruct (settle_all fotmob StringToNumber rest w') as [l w'']. reflexivity.
Qed.

(** A batch of string names against a provider that rejects with
    values: status 200, one key for every name but [__proto__], and each
    key holds the record of the name's last turn. *)
Lemma handler_strings req_body (ks : list string) w :
  rejects_with_values fotmob ->
  players_of req_body = Ok (JStr <$> ks) -> ks <> [] ->
  exists m,
    handler fotmob StringToNumber req_body w =
      ({| status := 200; body := StatsBody m |}, snd (settle_all fotmob StringToNumber ks w)) /\
    dom m = list_to_set ks ∖ {["__proto__"]} /\
    forall (l1 l2 : list (string * FantasyStat)) k st,
      fst (settle_all fotmob StringToNumber ks w) = (l1 ++ (k, st) :: l2)%list ->
      k <> "__proto__" -> k ∉ fst <$> l2 -> m !! k = Some st.
Proof.
  intros Hprov Hp Hne.
  exists (own (store_all (fst (settle_all fotmob StringToNumber ks w)) empty_out)).
  split; [| split].
  - unfold handler, handler_try, bind, lift. rewrite Hp.
    destruct ks as [| k rest]; [contradiction|].
    change (JStr <$> k :: rest) with (JStr <$> (k :: rest)).
    cbn [List.length Nat.eqb fmap list_fmap].
    change (JStr k :: (JStr <$> rest)) with (JStr <$> (k :: rest)).
    rewrite for_of_strings by exact Hprov. reflexivity.
  - rewrite store_all_dom, settle_all_keys. simpl. set_solver.
  - intros l1 l2 k st -> Hk Hnot. by apply store_all_last.
Qed.

(** A turn whose [try] block threw an error stores the zero record. *)
Lemma settle_failure nm w e w' :
  attempt fotmob StringToNumber nm w = (Throw e, w') ->
  settle fotmob StringToNumber nm w = (zero_stat nm, w').
Proof. intros H. unfold settle. rewrite H. reflexivity. Qed.

(** Whatever the provider does and whatever the names are, no response
    has a key [__proto__]. *)
Lemma loop_body_proto_key nm out w out' w' :
  loop_body fotmob StringToNumber nm out w = (Ok out', w') ->
  own out !! "__proto__" = None -> own out' !! "__proto__" = None.
Proof.
  intros Hrun Hout.
  assert (Hset : forall st o, set_prop out nm st = Ok o -> own o !! "__proto__" = None).
  { intros st o. unfold set_prop. destruct (to_string nm) as [k | e]; simpl; [| discriminate].
    intros [= <-]. destruct (String.eqb_spec k "__proto__") as [-> | Hk]; simpl.
    - exact Hout.
    - rewrite lookup_insert_ne; [exact Hout | exact Hk]. }
  revert Hrun. unfold loop_body, try_catch, bind, lift.
  destruct (attempt fotmob StringToNumber nm w) as [[st | e] w1]; cbn [obind].
  - destruct (set_prop out nm st) as [o | e1] eqn:Hs.
    + intros [= <- <-]. eapply Hset. exact Hs.
    + destruct (get_member e1 "message"); cbn [obind]; [| discriminate].
      rewrite toFantasyStat_null. cbn [obind].
      destruct (set_prop out nm (zero_stat nm)) as [o | e2] eqn:Hs2; [| discriminate].
      intros [= <- <-]. eapply Hset. exact Hs2.
  - destruct (get_member e "message"); cbn [obind]; [| discriminate].
    rewrite toFantasyStat_null. cbn [obind].
    destruct (set_prop out nm (zero_stat nm)) as [o | e2] eqn:Hs2; [| discriminate].
    intros [= <- <-]. eapply Hset. exact Hs2.
Qed.

Lemma for_of_proto_key names out w out' w' :
  for_of fotmob StringToNumber names out w = (Ok out', w') ->
  own out !! "__proto__" = None -> own out' !! "__proto__" = None.
Proof.
  revert out w. induction names as [| nm rest IH]; intros out w; simpl.
  - intros [= <- <-]. auto.
  - unfold bind.
    destruct (loop_body fotmob StringToNumber nm out w) as [[o | e] w1] eqn:Hl; [| discriminate].
    intros Hrest Hout. eapply IH; [exact Hrest|].
    eapply loop_body_proto_key; [exact Hl | exact Hout].
Qed.

Lemma handler_proto_key req_body w m :
  body (fst (handler fotmob StringToNumber req_body w)) = StatsBody m ->
  m !! "__proto__" = None.
Proof.
  unfold handler, handler_try, bind, lift.
  destruct (players_of req_body) as [players | e]; simpl; [| discriminate].
  destruct (List.length players =? 0)%nat; simpl; [discriminate|].
  destruct (for_of fotmob StringToNumber players empty_out w) as [[o | e] w1] eqn:Hf; simpl;
    [| discriminate].
  intros [= <-]. eapply for_of_proto_key; [exact Hf | reflexivity].
Qed.

End HandlerFacts.

(** ** Scenarios of the specification *)

Example unknown_player_scenario :
  handler fotmob_stub decimal_literals (players_body ["Unknown Player XYZ"]) (idle tt) =
    ({| status := 200;
        body := StatsBody {["Unknown Player XYZ" := zero_stat (JStr "Unknown Player XYZ")]} |},
     {| pstate := tt; calls := [CallSearch (JStr "Unknown Player XYZ")] |}).
Proof. vm_compute. reflexivity. Qed.

(** The row of 2025 is found among the season rows and normalized. *)
Example season_row_scenario :
  handler fotmob_stub decimal_literals (players_body ["Erling Haaland"]) (idle tt) =
    ({| status := 200;
        body := StatsBody {["Erling Haaland" := haaland_stat (JStr "Erling Haaland")]} |},
     {| pstate := tt;
        calls := [CallSearch (JStr "Erling Haaland"); CallPlayer (JStr "Erling Haaland")] |}).
Proof. vm_compute. reflexivity. Qed.

(** Three names, the detail call of the second one fails. *)
Example three_names_scenario :
  fst (handler second_detail_fails decimal_literals (players_body ["a"; "b"; "c"]) (idle 0%nat)) =
    {| status := 200;
       body := StatsBody (<["a" := haaland_stat (JStr "a")]>
                         (<["b" := zero_stat (JStr "b")]>
                         (<["c" := haaland_stat (JStr "c")]> ∅))) |}.
Proof. vm_compute. reflexivity. Qed.

(** An empty list of players is refused before any call. *)
Example empty_players_scenario :
  handler fotmob_stub decimal_literals (players_body []) (idle tt) =
    ({| status := 400; body := ErrorBody "players array required" |}, idle tt).
Proof. reflexivity. Qed.

(** A name given twice has one key, with the record of its second turn:
    here the turn whose detail call failed. *)
Example duplicate_names_scenario :
  fst (handler second_detail_fails decimal_literals (players_body ["a"; "a"]) (idle 0%nat)) =
    {| status := 200; body := StatsBody {["a" := zero_stat (JStr "a")]} |}.
Proof. vm_compute. reflexivity. Qed.

(** Line 44 falls back to [pdata.stats] and [toFantasyStat] reads [stats]
    of what it is given: player data of the plain shape
    [{stats: {goals: 20, ..}}] is read one level too deep and comes out
    as zeros, while the same blob handed to [toFantasyStat] itself yields
    the numbers. *)
Example plain_stats_blob_scenario :
  toFantasyStat decimal_literals (JStr "Erling Haaland") haaland_blob =
    Ok (haaland_stat (JStr "Erling Haaland")) /\
  fst (handler (always haaland_blob) decimal_literals (players_body ["Erling Haaland"]) (idle tt)) =
    {| status := 200;
       body := StatsBody {["Erling Haaland" := zero_stat (JStr "Erling Haaland")]} |}.
Proof. split; vm_compute; reflexivity. Qed.

(** A malformed blob on which the normalizer throws is caught by the
    turn of its name. *)
Example unprintable_goals_scenario :
  fst (handler (always (JObj [("games", JObj [("minutes", num 90)]);
                             ("goals", JObj [("total", JObj [("toString", num 1)])])]))
         decimal_literals (players_body ["a"]) (idle tt)) =
    {| status := 200; body := StatsBody {["a" := zero_stat (JStr "a")]} |}.
Proof. vm_compute. reflexivity. Qed.

(** The handler logs [e.message] on its way to the zero record: a
    rejection with [undefined] makes that read throw, outside the inner
    [try], and the whole batch is answered with status 500. *)
Example rejection_without_reason_scenario :
  handler rejects_undefined decimal_literals (players_body ["a"; "b"]) (idle tt) =
    ({| status := 500; body := ErrorBody "server_error" |},
     {| pstate := tt; calls := [CallSearch (JStr "a")] |}).
Proof. vm_compute. reflexivity. Qed.

(** Where the normalizer does return: when the goals and the penalties it
    selected have a string form. *)
Lemma toFantasyStat_returns stn nm fm s1 s2 :
  to_string (select fm "stats" "goals" "goals" "total") = Ok s1 ->
  to_string (select fm "stats" "penaltiesScored" "penalty" "scored") = Ok s2 ->
  exists st, toFantasyStat stn nm fm = Ok st.
Proof.
  intros H1 H2. rewrite toFantasyStat_selects. unfold js_sub.
  assert (Hn : forall v s, to_string v = Ok s -> exists n, to_number stn v = Ok n).
  { intros v s Hs. destruct v; simpl; eauto; rewrite Hs; simpl; eauto. }
  destruct (Hn _ _ H1) as [x ->]. destruct (Hn _ _ H2) as [y ->]. simpl. eauto.
Qed.

(** ** The properties of the specification *)

(** C1 (per-name isolation) fails on the code.  With the detail call of
    the second name failing, the batch is answered with status 200, but
    when that name is [__proto__] the zero record stored for it on line
    48 becomes the prototype of [out] and the response has no entry for
    the name: two keys for three names. *)
Theorem failed_proto_name_is_dropped :
  exists m w',
    handler second_detail_fails decimal_literals
      (players_body ["Erling Haaland"; "__proto__"; "Bukayo Saka"]) (idle 0%nat) =
      ({| status := 200; body := StatsBody m |}, w') /\
    calls w' = [CallSearch (JStr "Erling Haaland"); CallPlayer (JStr "Erling Haaland");
                CallSearch (JStr "__proto__"); CallPlayer (JStr "__proto__");
                CallSearch (JStr "Bukayo Saka"); CallPlayer (JStr "Bukayo Saka")] /\
    dom m = {["Erling Haaland"; "Bukayo Saka"]} /\
    m !! "__proto__" = None.
Proof.
  exists (<["Erling Haaland" := haaland_stat (JStr "Erling Haaland")]>
          (<["Bukayo Saka" := haaland_stat (JStr "Bukayo Saka")]> ∅)).
  eexists. split; [vm_compute; reflexivity|].
  split; [reflexivity|]. split; [| reflexivity].
  rewrite !dom_insert_L, dom_empty_L. set_solver.
Qed.

(** C2 (the keys of the result are the names) fails on the code.
    Whatever the provider does, the mapping of a response has no key
    [__proto__]: for the name [__proto__] the assignments on lines 40, 45
    and 48 set the prototype of [out] and define no property, so that
    name is never a key of the result. *)
Theorem proto_name_is_not_a_key {S} (fotmob : Provider S) stn (names : list string) w m :
  body (fst (handler fotmob stn (players_body names) w)) = StatsBody m ->
  "__proto__" ∉ dom m.
Proof.
  intros H. apply not_elem_of_dom.
  apply (handler_proto_key fotmob stn (players_body names) w m H).
Qed.

(** The single name [__proto__], found and resolved by the provider: the
    response is the empty mapping. *)
Lemma proto_name_is_not_a_key_witness :
  handler fotmob_stub decimal_literals (players_body ["__proto__"]) (idle tt) =
    ({| status := 200; body := StatsBody ∅ |},
     {| pstate := tt;
        calls := [CallSearch (JStr "__proto__"); CallPlayer (JStr "__proto__")] |}) /\
  "__proto__" ∉ dom (∅ : gmap string FantasyStat).
Proof.
  split; [vm_compute; reflexivity|].
  apply (proto_name_is_not_a_key fotmob_stub decimal_literals ["__proto__"] (idle tt)).
  vm_compute. reflexivity.
Defined.



Ltac check_fields :=
  unfold fields_satisfy;
  repeat (apply List.Forall_cons;
          [ first [ left; reflexivity
                  | right; eexists; split; [reflexivity | lia]
                  | right; eexists; reflexivity ] |]);
  apply List.Forall_nil.


(** C4 as stated fails: with both [stats.goals] and [goals.total] present
    and [stats.goals] equal to 0, the value of [goals.total] is
    selected. *)
Lemma present_zero_stats_goals_loses :
  probe zero_stats_goals "stats" "goals" = num 0 /\
  probe zero_stats_goals "goals" "total" = num 7 /\
  pick zero_stats_goals "stats" "goals" "goals" "total" = Ok (num 7) /\
  pick zero_stats_goals "stats" "goals" "goals" "total" <>
    Ok (probe zero_stats_goals "stats" "goals") /\
  exists st,
    toFantasyStat decimal_literals (JStr "Erling Haaland") zero_stats_goals = Ok st /\
    nonPenaltyGoals st = num 7.
Proof.
  split; [reflexivity|]. split; [reflexivity|]. split; [reflexivity|].
  split; [discriminate|]. eexists. split; reflexivity.
Qed.

(** C4, amended.  For every blob and every field, the fallback selects
    the value of the stats path when that value is truthy, the value of
    the legacy path when the first is falsy and the second truthy, and 0
    when both are falsy; and the record that the normalizer returns
    holds the selected values. *)
Theorem fallback_prefers_truthy_stats stn nm fm :
  (forall ns1 k1 ns2 k2,
     exists v, pick fm ns1 k1 ns2 k2 = Ok v /\
       (truthy (probe fm ns1 k1) = true -> v = probe fm ns1 k1) /\
       (truthy (probe fm ns1 k1) = false -> truthy (probe fm ns2 k2) = true ->
        v = probe fm ns2 k2) /\
       (truthy (probe fm ns1 k1) = false -> truthy (probe fm ns2 k2) = false ->
        v = num 0)) /\
  (forall st, toFantasyStat stn nm fm = Ok st ->
     pick fm "stats" "minutes" "games" "minutes" = Ok (minutes st) /\
     pick fm "stats" "penaltiesScored" "penalty" "scored" = Ok (penaltyGoals st) /\
     pick fm "stats" "assists" "goals" "assists" = Ok (assists st) /\
     pick fm "stats" "yellow" "cards" "yellow" = Ok (yellowCards st) /\
     pick fm "stats" "red" "cards" "red" = Ok (redCards st) /\
     exists goalsTotal diff,
       pick fm "stats" "goals" "goals" "total" = Ok goalsTotal /\
       js_sub stn goalsTotal (penaltyGoals st) = Ok diff /\
       math_max0 stn diff = Ok (nonPenaltyGoals st)).
Proof.
  split.
  - intros ns1 k1 ns2 k2. exists (select fm ns1 k1 ns2 k2).
    split; [apply pick_select|]. rewrite select_cases.
    repeat split; intros Ha; rewrite Ha; try reflexivity; intros Hb; rewrite Hb; reflexivity.
  - intros st Hst.
    destruct (toFantasyStat_fields stn nm fm st Hst) as (_ & _ & -> & -> & -> & -> & ->).
    rewrite !pick_select. repeat split.
    exists (select fm "stats" "goals" "goals" "total").
    revert Hst. rewrite toFantasyStat_selects.
    destruct (js_sub _ _ _) as [d | e]; simpl; [| discriminate].
    destruct (math_max0 _ d) as [npg | e] eqn:Hm; simpl; [| discriminate].
    intros [= <-]. simpl. exists d. rewrite Hm. repeat split.
Qed.

(** Both paths of the goals present and truthy. *)
Lemma fallback_prefers_truthy_stats_witness :
  let fm := JObj [("stats", JObj [("goals", num 20)]); ("goals", JObj [("total", num 7)])] in
  pick fm "stats" "goals" "goals" "total" = Ok (num 20) /\
  exists st, toFantasyStat decimal_literals (JStr "Erling Haaland") fm = Ok st /\
             pick fm "stats" "minutes" "games" "minutes" = Ok (minutes st).
Proof.
  intros fm.
  destruct (fallback_prefers_truthy_stats decimal_literals (JStr "Erling Haaland") fm)
    as [Hpick Hstat].
  split.
  - destruct (Hpick "stats" "goals" "goals" "total") as (v & Hv & Ht & _).
    rewrite Hv. f_equal. apply Ht. reflexivity.
  - eexists. split; [reflexivity|]. apply Hstat. reflexivity.
Defined.

(** C5.  For every request whose body has no [players], a [players] that
    is not an array, or an empty one, the answer is status 400 with the
    error "players array required", and the world is left as it was: no
    search and no detail call is made. *)
Theorem validation_rejects_without_calls {S} (fotmob : Provider S) stn req_body w :
  lacks_players req_body ->
  handler fotmob stn req_body w =
    ({| status := 400; body := ErrorBody "players array required" |}, w).
Proof.
  intros H. unfold handler, handler_try, bind, lift.
  rewrite (players_of_lacking req_body H). reflexivity.
Qed.

Lemma validation_rejects_without_calls_witness :
  lacks_players (JObj [("season", num 2025)]) /\
  handler fotmob_stub decimal_literals (JObj [("season", num 2025)]) (idle tt) =
    ({| status := 400; body := ErrorBody "players array required" |}, idle tt).
Proof.
  assert (H : lacks_players (JObj [("season", num 2025)])).
  { exists JUndefined. split; [reflexivity | left; reflexivity]. }
  split; [exact H|].
  exact (validation_rejects_without_calls fotmob_stub decimal_literals _ (idle tt) H).
Defined.



(** C7 (the normalizer never raises) fails on the code.  For every blob
    whose [stats.goals] is an object with an own [toString] property,
    the subtraction on line 24 cannot convert the goals it selected to a
    number and the normalizer throws a [TypeError]. *)
Theorem normalizer_throws_on_unprintable_goals stn nm fm props v :
  probe fm "stats" "goals" = JObj props ->
  assoc "toString" props = Some v ->
  toFantasyStat stn nm fm = Throw (TypeError "Cannot convert object to primitive value").
Proof.
  intros Hgoals Hown. rewrite toFantasyStat_selects.
  rewrite (select_cases fm "stats" "goals"), Hgoals. simpl truthy. cbv iota.
  unfold js_sub, to_number, to_string. simpl primitive_string.
  rewrite Hown. reflexivity.
Qed.

Lemma normalizer_throws_on_unprintable_goals_witness :
  probe unprintable_goals "stats" "goals" = JObj [("toString", num 1)] /\
  toFantasyStat decimal_literals (JStr "Erling Haaland") unprintable_goals =
    Throw (TypeError "Cannot convert object to primitive value").
Proof.
  split; [reflexivity|].
  apply (normalizer_throws_on_unprintable_goals decimal_literals (JStr "Erling Haaland")
           unprintable_goals [("toString", num 1)] (num 1)); reflexivity.
Defined.

(** C8 as stated fails: a negative [minutes] of the provider is returned
    as it is. *)
Lemma negative_minutes_returned :
  exists m st,
    fst (handler (always negative_minutes) decimal_literals
           (players_body ["Erling Haaland"]) (idle tt)) =
      {| status := 200; body := StatsBody m |} /\
    m !! "Erling Haaland" = Some st /\
    minutes st = num (-90) /\
    ~ nonneg_int (minutes st).
Proof.
  eexists {["Erling Haaland" := _]}, _.
  split; [vm_compute; reflexivity|].
  split; [apply lookup_singleton_eq|].
  split; [reflexivity|].
  intros (z & Hz & Hpos). simpl in Hz. injection Hz as <-. lia.
Qed.

Lemma toFantasyStat_nat_fields stn nm fm st :
  fields_satisfy absent_or_nat probed_paths fm ->
  toFantasyStat stn nm fm = Ok st ->
  nonneg_int (nonPenaltyGoals st) /\ nonneg_int (penaltyGoals st) /\
  nonneg_int (assists st) /\ nonneg_int (minutes st) /\
  nonneg_int (yellowCards st) /\ nonneg_int (redCards st).
Proof.
  intros H. unfold fields_satisfy, probed_paths, goal_paths in H. simpl in H.
  repeat match type of H with
         | Forall _ (_ :: _) =>
             let Hx := fresh "Hp" in apply Forall_cons_1 in H as [Hx H]; simpl in Hx
         end.
  pose proof (select_nat fm "stats" "goals" "goals" "total" Hp Hp0) as (g & Hg & Hg0).
  pose proof (select_nat fm "stats" "penaltiesScored" "penalty" "scored" Hp1 Hp2)
    as (p & Hp' & Hp0').
  rewrite (toFantasyStat_ints stn nm fm g p Hg Hp'). intros [= <-]. simpl.
  split; [exists (Z.max 0 (round_double (g - p))); split; [reflexivity | lia]|].
  split; [exists p; split; [reflexivity | exact Hp0']|].
  split; [apply select_nat; assumption|].
  split; [apply select_nat; assumption|].
  split; apply select_nat; assumption.
Qed.

Section Blobs.

Context {S : Type}.
Variable fotmob : Provider S.
Variable StringToNumber : string -> number.

Lemma zero_stat_blob nm : normalized_blob fotmob StringToNumber (zero_stat nm).
Proof. exists JNull. split; [left; reflexivity | reflexivity]. Qed.

Lemma attempt_blob nm w st w' :
  attempt fotmob StringToNumber nm w = (Ok st, w') ->
  normalized_blob fotmob StringToNumber st.
Proof.
  unfold attempt, bind, call_search, call_player, lift.
  destruct (search fotmob nm (pstate w)) as [[results | e1] s1]; [| discriminate].
  destruct (best_of results) as [best | e2]; [| discriminate].
  destruct (opt_member best "id") as [id | e3]; [| discriminate].
  destruct (truthy id); [simpl | cbn [negb]].
  - destruct (get_member best "id") as [id' | e6]; [| discriminate].
    destruct (player fotmob id' s1) as [[pdata | e4] s2] eqn:Hp; [| discriminate].
    destruct (seasonAgg pdata) as [agg | e5] eqn:Ha; [| discriminate].
    intros [= H _]. exists (js_or agg pdata).
    destruct (toFantasyStat_fields StringToNumber nm _ st H) as (-> & _).
    split; [| exact H]. right. exists id', s1, pdata, s2, agg. auto.
  - rewrite toFantasyStat_null. intros [= <- _]. apply zero_stat_blob.
Qed.

Lemma set_prop_blob out nm st o :
  (forall k st', own out !! k = Some st' -> normalized_blob fotmob StringToNumber st') ->
  normalized_blob fotmob StringToNumber st ->
  set_prop out nm st = Ok o ->
  forall k st', own o !! k = Some st' -> normalized_blob fotmob StringToNumber st'.
Proof.
  intros Hout Hst. unfold set_prop. destruct (to_string nm) as [k0 | e]; simpl;
    [| discriminate].
  intros [= <-] k st'. destruct (String.eqb k0 "__proto__"); simpl; [apply Hout|].
  destruct (decide (k0 = k)) as [-> | Hne].
  - rewrite lookup_insert_eq. intros [= <-]. exact Hst.
  - rewrite lookup_insert_ne by exact Hne. apply Hout.
Qed.

Lemma loop_body_blob nm out w o w' :
  (forall k st', own out !! k = Some st' -> normalized_blob fotmob StringToNumber st') ->
  loop_body fotmob StringToNumber nm out w = (Ok o, w') ->
  forall k st', own o !! k = Some st' -> normalized_blob fotmob StringToNumber st'.
Proof.
  intros Hout. unfold loop_body, try_catch, bind, lift.
  destruct (attempt fotmob StringToNumber nm w) as [[st | e] w1] eqn:Ha; cbn [obind].
  - destruct (set_prop out nm st) as [o1 | e1] eqn:Hs.
    + intros [= <- <-]. eapply set_prop_blob; [exact Hout | | exact Hs].
      eapply attempt_blob. exact Ha.
    + destruct (get_member e1 "message"); cbn [obind]; [| discriminate].
      rewrite toFantasyStat_null. cbn [obind].
      destruct (set_prop out nm (zero_stat nm)) as [o2 | e2] eqn:Hs2; [| discriminate].
      intros [= <- <-]. eapply set_prop_blob; [exact Hout | apply zero_stat_blob | exact Hs2].
  - destruct (get_member e "message"); cbn [obind]; [| discriminate].
    rewrite toFantasyStat_null. cbn [obind].
    destruct (set_prop out nm (zero_stat nm)) as [o2 | e2] eqn:Hs2; [| discriminate].
    intros [= <- <-]. eapply set_prop_blob; [exact Hout | apply zero_stat_blob | exact Hs2].
Qed.

Lemma for_of_blob names out w o w' :
  (forall k st', own out !! k = Some st' -> normalized_blob fotmob StringToNumber st') ->
  for_of fotmob StringToNumber names out w = (Ok o, w') ->
  forall k st', own o !! k = Some st' -> normalized_blob fotmob StringToNumber st'.
Proof.
  revert out w. induction names as [| nm rest IH]; intros out w Hout; simpl.
  - intros [= <- <-]. exact Hout.
  - unfold bind.
    destruct (loop_body fotmob StringToNumber nm out w) as [[o1 | e] w1] eqn:Hl; [| discriminate].
    apply IH. eapply loop_body_blob; [exact Hout | exact Hl].
Qed.

Lemma handler_blob req_body w m k st :
  body (fst (handler fotmob StringToNumber req_body w)) = StatsBody m ->
  m !! k = Some st ->
  normalized_blob fotmob StringToNumber st.
Proof.
  unfold handler, handler_try, bind, lift.
  destruct (players_of req_body) as [players | e]; simpl; [| discriminate].
  destruct (List.length players =? 0)%nat; simpl; [discriminate|].
  destruct (for_of fotmob StringToNumber players empty_out w) as [[o | e] w1] eqn:Hf; simpl;
    [| discriminate].
  intros [= <-]. revert k st. eapply for_of_blob; [| exact Hf].
  intros k st H. simpl in H. rewrite lookup_empty in H. discriminate H.
Qed.

End Blobs.

(** C8, amended.  Every record of a response is the normalization of the
    blob that the handler handed over for it: no blob, or
    [seasonAgg || pdata] for a detail answer [pdata] of the provider.
    Each of the five fields other than [nonPenaltyGoals] is the value
    that the fallback selects from that blob, returned as it is; and when
    each of the twelve probed fields of that blob is absent or a
    non-negative integer, all six numeric fields of the record are
    non-negative integers. *)
Theorem numeric_fields_nonneg {S} (fotmob : Provider S) stn req_body w m k st :
  body (fst (handler fotmob stn req_body w)) = StatsBody m ->
  m !! k = Some st ->
  exists fm,
    handed_to_normalizer fotmob fm /\
    toFantasyStat stn (name st) fm = Ok st /\
    pick fm "stats" "penaltiesScored" "penalty" "scored" = Ok (penaltyGoals st) /\
    pick fm "stats" "assists" "goals" "assists" = Ok (assists st) /\
    pick fm "stats" "minutes" "games" "minutes" = Ok (minutes st) /\
    pick fm "stats" "yellow" "cards" "yellow" = Ok (yellowCards st) /\
    pick fm "stats" "red" "cards" "red" = Ok (redCards st) /\
    (fields_satisfy absent_or_nat probed_paths fm ->
     nonneg_int (nonPenaltyGoals st) /\ nonneg_int (penaltyGoals st) /\
     nonneg_int (assists st) /\ nonneg_int (minutes st) /\
     nonneg_int (yellowCards st) /\ nonneg_int (redCards st)).
Proof.
  intros Hbody Hk.
  destruct (handler_blob fotmob stn req_body w m k st Hbody Hk) as (fm & Hfm & Hst).
  exists fm. split; [exact Hfm|]. split; [exact Hst|].
  destruct (toFantasyStat_fields stn (name st) fm st Hst) as (_ & _ & Hp & Ha & Hm & Hy & Hr).
  split; [rewrite pick_select, Hp; reflexivity|].
  split; [rewrite pick_select, Ha; reflexivity|].
  split; [rewrite pick_select, Hm; reflexivity|].
  split; [rewrite pick_select, Hy; reflexivity|].
  split; [rewrite pick_select, Hr; reflexivity|].
  intros Hnat. exact (toFantasyStat_nat_fields stn (name st) fm st Hnat Hst).
Qed.

(** The record of a player found by the provider: its blob is the row of
    2025, whose fields are non-negative integers. *)
Lemma numeric_fields_nonneg_witness :
  exists m st,
    body (fst (handler fotmob_stub decimal_literals (players_body ["Erling Haaland"])
                 (idle tt))) = StatsBody m /\
    m !! "Erling Haaland" = Some st /\
    nonneg_int (nonPenaltyGoals st) /\ nonneg_int (penaltyGoals st) /\
    nonneg_int (assists st) /\ nonneg_int (minutes st) /\
    nonneg_int (yellowCards st) /\ nonneg_int (redCards st).
Proof.
  exists {["Erling Haaland" := haaland_stat (JStr "Erling Haaland")]},
         (haaland_stat (JStr "Erling Haaland")).
  assert (Hb : body (fst (handler fotmob_stub decimal_literals
                            (players_body ["Erling Haaland"]) (idle tt))) =
               StatsBody {["Erling Haaland" := haaland_stat (JStr "Erling Haaland")]})
    by (vm_compute; reflexivity).
  assert (Hl : ({["Erling Haaland" := haaland_stat (JStr "Erling Haaland")]}
                  : gmap string FantasyStat) !! "Erling Haaland" =
               Some (haaland_stat (JStr "Erling Haaland"))) by apply lookup_singleton_eq.
  split; [exact Hb|]. split; [exact Hl|].
  destruct (numeric_fields_nonneg fotmob_stub decimal_literals _ (idle tt) _ _ _ Hb Hl)
    as (fm & Hfm & Hst & _ & _ & _ & _ & _ & Hnat).
  apply Hnat.
  destruct Hfm as [-> | (id & s & pdata & s' & agg & Hp & Hagg & ->)].
  - check_fields.
  - simpl in Hp. injection Hp as <- _. vm_compute in Hagg. injection Hagg as <-.
    check_fields.
Defined.





(** C10.  The handler reads [players] of the request body and nothing
    else: two bodies with the same [players], whatever their [season],
    get the same response and cause the same calls against the same
    provider.  The season row is chosen by ["2025"] alone. *)
Theorem season_is_ignored {S} (fotmob : Provider S) stn b1 b2 w :
  get_member b1 "players" = get_member b2 "players" ->
  handler fotmob stn b1 w = handler fotmob stn b2 w.
Proof.
  intros H. apply handler_players. unfold players_of. rewrite H. reflexivity.
Qed.

(** A request for the season 2023 against player data with a row of 2023
    and a row of 2025 is answered from the row of 2025, as is the request
    that names no season. *)
Lemma season_is_ignored_witness :
  let with_season := JObj [("players", JArr [JStr "Erling Haaland"]); ("season", num 2023)] in
  let without := JObj [("players", JArr [JStr "Erling Haaland"])] in
  handler fotmob_stub decimal_literals with_season (idle tt) =
    handler fotmob_stub decimal_literals without (idle tt) /\
  fst (handler fotmob_stub decimal_literals with_season (idle tt)) =
    {| status := 200;
       body := StatsBody {["Erling Haaland" := haaland_stat (JStr "Erling Haaland")]} |}.
Proof.
  intros with_season without. split.
  - apply (season_is_ignored fotmob_stub decimal_literals with_season without (idle tt)).
    reflexivity.
  - vm_compute. reflexivity.
Defined.

(** ** Further properties of the normalizer *)

Lemma probe_not_object fm ns k :
  (forall props, fm <> JObj props) -> probe fm ns k = JUndefined.
Proof.
  intros H. destruct fm; try reflexivity.
  - unfold probe, opt_path, opt_member. simpl.
    destruct (String.eqb ns "length"); reflexivity.
  - unfold probe, opt_path, opt_member. simpl.
    destruct (String.eqb ns "length"); reflexivity.
  - destruct (H props). reflexivity.
Qed.

Lemma probe_flat props ns k :
  match assoc ns props with Some (JObj _) => False | _ => True end ->
  String.eqb k "length" = false ->
  probe (JObj props) ns k = JUndefined.
Proof.
  intros Hns Hk. unfold probe, opt_path, opt_member. simpl.
  destruct (assoc ns props) as [v |]; [| reflexivity].
  destruct v; simpl; try rewrite Hk; try reflexivity. contradiction.
Qed.

Lemma toFantasyStat_undefined_probes stn nm fm :
  Forall (fun p => probe fm (fst p) (snd p) = JUndefined) probed_paths ->
  toFantasyStat stn nm fm = Ok (zero_stat nm).
Proof.
  intros H. unfold probed_paths, goal_paths in H. simpl in H.
  repeat match type of H with
         | Forall _ (_ :: _) =>
             let Hx := fresh "Hp" in apply Forall_cons_1 in H as [Hx H]; simpl in Hx
         end.
  rewrite toFantasyStat_selects. unfold select.
  repeat match goal with Hx : probe _ _ _ = JUndefined |- _ => rewrite Hx; clear Hx end.
  reflexivity.
Qed.

(** X1.  The normalizer reads the blob at its twelve paths and nowhere
    else: two blobs that hold the same values there are normalized
    alike, thrown errors included. *)
Theorem normalizer_reads_twelve_paths stn nm fm1 fm2 :
  Forall (fun p => probe fm1 (fst p) (snd p) = probe fm2 (fst p) (snd p)) probed_paths ->
  toFantasyStat stn nm fm1 = toFantasyStat stn nm fm2.
Proof.
  intros H. unfold probed_paths, goal_paths in H. simpl in H.
  repeat match type of H with
         | Forall _ (_ :: _) =>
             let Hx := fresh "Hp" in apply Forall_cons_1 in H as [Hx H]; simpl in Hx
         end.
  rewrite !toFantasyStat_selects. unfold select.
  repeat match goal with Hx : probe fm1 _ _ = _ |- _ => rewrite Hx; clear Hx end.
  reflexivity.
Qed.

(** The blob of the scenario with members the normalizer never reads. *)
Lemma normalizer_reads_twelve_paths_witness :
  let noisy := JObj [("team", JStr "Manchester City"); ("stats", haaland_stats);
                     ("goals", num 99)] in
  toFantasyStat decimal_literals (JStr "Erling Haaland") noisy =
    Ok (haaland_stat (JStr "Erling Haaland")).
Proof.
  intros noisy.
  rewrite (normalizer_reads_twelve_paths decimal_literals (JStr "Erling Haaland")
             noisy haaland_blob).
  - reflexivity.
  - unfold probed_paths, goal_paths. simpl.
    repeat (apply List.Forall_cons; [reflexivity|]). apply List.Forall_nil.
Defined.

(** X2.  For every blob whose goal fields are absent or integers, with
    the total goals and the penalties selected no more than 2^53 apart,
    the two goal fields of the record add up to the larger of the two: to
    the total goals whenever the penalties do not exceed them. *)
Theorem goal_fields_add_up stn nm fm :
  fields_satisfy absent_or_int goal_paths fm ->
  exists st n p g,
    toFantasyStat stn nm fm = Ok st /\
    pick fm "stats" "goals" "goals" "total" = Ok (num g) /\
    nonPenaltyGoals st = num n /\ penaltyGoals st = num p /\
    (Z.abs (g - p) <= two53 -> n + p = Z.max g p /\ (p <= g -> n + p = g)).
Proof.
  intros H. unfold fields_satisfy, goal_paths in H.
  apply Forall_cons_1 in H as [Hgs H]. apply Forall_cons_1 in H as [Hgl H].
  apply Forall_cons_1 in H as [Hps H]. apply Forall_cons_1 in H as [Hpl _].
  simpl in Hgs, Hgl, Hps, Hpl.
  destruct (select_int fm "stats" "goals" "goals" "total" Hgs Hgl) as [g Hg].
  destruct (select_int fm "stats" "penaltiesScored" "penalty" "scored" Hps Hpl) as [p Hp].
  eexists _, (Z.max 0 (round_double (g - p))), p, g.
  split; [apply (toFantasyStat_ints stn nm fm g p Hg Hp)|].
  rewrite pick_select, Hg. simpl.
  split; [reflexivity|]. split; [reflexivity|]. split; [reflexivity|].
  intros Hsmall. rewrite (round_double_exact _ Hsmall). lia.
Qed.

Lemma goal_fields_add_up_witness :
  fields_satisfy absent_or_int goal_paths haaland_blob /\
  exists st,
    toFantasyStat decimal_literals (JStr "Erling Haaland") haaland_blob = Ok st /\
    nonPenaltyGoals st = num 15 /\ penaltyGoals st = num 5.
Proof.
  assert (H : fields_satisfy absent_or_int goal_paths haaland_blob) by check_fields.
  split; [exact H|].
  destruct (goal_fields_add_up decimal_literals (JStr "Erling Haaland") haaland_blob H)
    as (st & n & p & g & Hst & Hg & Hn & Hp & Hsum).
  exists st. split; [exact Hst|].
  assert (Hpen : penaltyGoals st = num 5).
  { vm_compute in Hst. injection Hst as <-. reflexivity. }
  split; [| exact Hpen].
  injection Hg as <-. rewrite Hp in Hpen. injection Hpen as ->.
  destruct Hsum as [_ Hsum]; [vm_compute; discriminate|].
  rewrite Hn. f_equal. specialize (Hsum ltac:(lia)). lia.
Defined.

(** X3.  Whatever the blob, a record that the normalizer returns is
    filled in: the name is the one given, [motm] is false,
    [nonPenaltyGoals] is a number that is [NaN] or not negative, and each
    of the five other fields is a truthy value or the number 0, never
    [undefined], [null], [NaN], [false] or the empty string. *)
Theorem returned_record_is_filled stn nm fm st :
  toFantasyStat stn nm fm = Ok st ->
  name st = nm /\ motm st = JBool false /\
  (nonPenaltyGoals st = JNum NaN \/ nonneg_int (nonPenaltyGoals st)) /\
  Forall (fun v => truthy v = true \/ v = num 0)
         [penaltyGoals st; assists st; minutes st; yellowCards st; redCards st].
Proof.
  intros Hst.
  destruct (toFantasyStat_fields stn nm fm st Hst) as (Hn & Hm & -> & -> & -> & -> & ->).
  split; [exact Hn|]. split; [exact Hm|]. split.
  - revert Hst. rewrite toFantasyStat_selects.
    destruct (js_sub _ _ _) as [d | e]; simpl; [| discriminate].
    unfold math_max0. destruct (to_number stn d) as [x | e]; simpl; [| discriminate].
    intros [= <-]. simpl. destruct x as [z |]; [right | left; reflexivity].
    exists (Z.max 0 z). split; [reflexivity | lia].
  - repeat (apply List.Forall_cons; [apply select_truthy_or_zero|]). apply List.Forall_nil.
Qed.

(** Minutes given as text are returned as that text. *)
Lemma returned_record_is_filled_witness :
  let fm := JObj [("stats", JObj [("minutes", JStr "ninety")])] in
  exists st,
    toFantasyStat decimal_literals (JStr "Bukayo Saka") fm = Ok st /\
    minutes st = JStr "ninety" /\ name st = JStr "Bukayo Saka" /\
    (nonPenaltyGoals st = JNum NaN \/ nonneg_int (nonPenaltyGoals st)).
Proof.
  intros fm. eexists. split; [reflexivity|]. split; [reflexivity|].
  destruct (returned_record_is_filled decimal_literals (JStr "Bukayo Saka") fm _ eq_refl)
    as (Hn & _ & Hnpg & _).
  split; [exact Hn | exact Hnpg].
Defined.

(** X4.  A blob that is not an object, be it [undefined], [null], a
    boolean, a number, a string or an array, is normalized to the zero
    record. *)
Theorem non_object_blob_is_zero stn nm fm :
  (forall props, fm <> JObj props) ->
  toFantasyStat stn nm fm = Ok (zero_stat nm).
Proof.
  intros H. apply toFantasyStat_undefined_probes.
  unfold probed_paths, goal_paths. simpl.
  repeat (apply List.Forall_cons; [apply probe_not_object; exact H|]). apply List.Forall_nil.
Qed.

(** An array of numbers and a page of text in place of the blob. *)
Lemma non_object_blob_is_zero_witness :
  toFantasyStat decimal_literals (JStr "Bukayo Saka") (JArr [num 20; num 5]) =
    Ok (zero_stat (JStr "Bukayo Saka")) /\
  toFantasyStat decimal_literals (JStr "Bukayo Saka") (JStr "<html>502</html>") =
    Ok (zero_stat (JStr "Bukayo Saka")).
Proof.
  split; apply non_object_blob_is_zero; intros props H; discriminate H.
Defined.

Lemma toFantasyStat_flat stn nm props :
  flat props -> toFantasyStat stn nm (JObj props) = Ok (zero_stat nm).
Proof.
  intros H. unfold flat, namespaces in H.
  apply Forall_cons_1 in H as [Hstats H]. apply Forall_cons_1 in H as [Hgames H].
  apply Forall_cons_1 in H as [Hgoals H]. apply Forall_cons_1 in H as [Hpen H].
  apply Forall_cons_1 in H as [Hcards _].
  apply toFantasyStat_undefined_probes.
  unfold probed_paths, goal_paths. simpl.
  repeat (apply List.Forall_cons; [apply probe_flat; [assumption | reflexivity]|]).
  apply List.Forall_nil.
Qed.

(** X5.  The normalizer finds numbers only two levels deep: an object
    that holds them at its top level, none of its five namespaces being
    an object, is normalized to the zero record. *)
Theorem flat_blob_is_zero stn nm props :
  flat props ->
  toFantasyStat stn nm (JObj props) = Ok (zero_stat nm).
Proof. apply toFantasyStat_flat. Qed.

Lemma flat_blob_is_zero_witness :
  match haaland_stats with
  | JObj props => flat props
  | _ => False
  end /\
  toFantasyStat decimal_literals (JStr "Erling Haaland") haaland_stats =
    Ok (zero_stat (JStr "Erling Haaland")).
Proof.
  assert (H : match haaland_stats with JObj props => flat props | _ => False end).
  { simpl. unfold flat, namespaces.
    repeat (apply List.Forall_cons; [exact I|]). apply List.Forall_nil. }
  split; [exact H|].
  exact (flat_blob_is_zero decimal_literals (JStr "Erling Haaland") _ H).
Defined.

(** X6.  The port is the variable [PORT] of the environment, as the
    string it is, whenever that is set to something other than the empty
    string; unset or empty, it is the number 3000. *)
Theorem port_defaults_to_3000 env :
  (forall s, env = Some s -> s <> EmptyString -> PORT env = JStr s) /\
  (env = None \/ env = Some EmptyString -> PORT env = num 3000) /\
  truthy (PORT env) = true.
Proof.
  unfold PORT, js_or. repeat split.
  - intros s -> Hs. simpl. destruct s; [contradiction | reflexivity].
  - intros [-> | ->]; reflexivity.
  - destruct env as [[| c s] |]; reflexivity.
Qed.

Lemma port_defaults_to_3000_witness :
  PORT (Some "8080") = JStr "8080" /\ PORT (Some "0") = JStr "0" /\ PORT None = num 3000.
Proof.
  destruct (port_defaults_to_3000 (Some "8080")) as (H1 & _ & _).
  destruct (port_defaults_to_3000 (Some "0")) as (H2 & _ & _).
  destruct (port_defaults_to_3000 None) as (_ & H3 & _).
  split; [apply H1; [reflexivity | discriminate]|].
  split; [apply H2; [reflexivity | discriminate]|].
  apply H3. left. reflexivity.
Defined.

(** ** Further properties of the choice of the season row *)

Lemma prefix_app sub s : String.prefix sub s = true <-> exists b, s = sub ++ b.
Proof.
  revert s. induction sub as [| a sub IH]; intros s; simpl.
  - split; [intros _; exists s; reflexivity | intros _; destruct s; reflexivity].
  - destruct s as [| c s]; simpl.
    + split; [discriminate | intros [b Hb]; discriminate Hb].
    + destruct (Ascii.ascii_dec a c) as [-> | Hne].
      * rewrite IH. split; intros [b Hb]; exists b; [by rewrite Hb | by injection Hb].
      * split; [discriminate | intros [b Hb]; injection Hb as Hc _; by destruct Hne].
Qed.

(** [includes] is the search for a substring. *)
Lemma includes_spec sub s : includes sub s = true <-> exists a b, s = a ++ sub ++ b.
Proof.
  induction s as [| c s IH]; cbn [includes].
  - rewrite orb_false_r, prefix_app. split.
    + intros [b Hb]. exists EmptyString, b. exact Hb.
    + intros (a & b & H). destruct a; [by exists b | discriminate H].
  - rewrite orb_true_iff, IH, prefix_app. split.
    + intros [[b Hb] | (a & b & Hab)].
      * exists EmptyString, b. exact Hb.
      * exists (String c a), b. simpl. by rewrite Hab.
    + intros (a & b & H). destruct a as [| c' a]; simpl in H.
      * left. by exists b.
      * right. injection H as _ H. by exists a, b.
Qed.

Lemma find_season_skips pre rest :
  Forall (fun s => season_matches s = Ok false) pre ->
  find_season (pre ++ rest) = find_season rest.
Proof.
  induction 1 as [| s pre Hs _ IH]; simpl; [reflexivity|].
  rewrite Hs. simpl. exact IH.
Qed.

Lemma matching_row_truthy row : season_matches row = Ok true -> truthy row = true.
Proof.
  destruct row; try reflexivity; unfold season_matches; simpl; discriminate.
Qed.

(** X7.  A season row whose [season] is a string is a row of 2025
    exactly when that string contains "2025" somewhere: the label
    "2024/2025" is one as well. *)
Theorem season_row_matches_substring row label :
  get_member row "season" = Ok (JStr label) ->
  season_matches row = Ok true <-> exists a b, label = a ++ "2025" ++ b.
Proof.
  intros H. unfold season_matches. rewrite H. simpl. rewrite <- includes_spec.
  split; [intros [= ->]; reflexivity | intros ->; reflexivity].
Qed.

Lemma season_row_matches_substring_witness :
  season_matches (season_row "2024/2025" haaland_stats) = Ok true.
Proof.
  apply (season_row_matches_substring (season_row "2024/2025" haaland_stats) "2024/2025").
  - reflexivity.
  - exists "2024/", EmptyString. reflexivity.
Defined.

(** X8.  Of the season rows, the first that is of 2025 is the blob that
    is normalized, provided the rows before it can be read; the rows
    after it are not looked at. *)
Theorem first_matching_row_wins pdata pre row post :
  opt_path pdata "stats" "seasons" = Ok (JArr (pre ++ row :: post)) ->
  Forall (fun s => season_matches s = Ok false) pre ->
  season_matches row = Ok true ->
  seasonAgg pdata = Ok row /\ js_or row pdata = row.
Proof.
  intros Hseasons Hpre Hrow.
  pose proof (matching_row_truthy row Hrow) as Htruthy.
  unfold seasonAgg, seasons_find. rewrite Hseasons. simpl.
  rewrite (find_season_skips pre (row :: post) Hpre). simpl. rewrite Hrow. simpl.
  destruct (opt_member_ok pdata "stats") as [stats ->]. simpl.
  unfold js_or. rewrite Htruthy. split; reflexivity.
Qed.

(** Two rows of 2025 after a row of 2023, the last one not even an
    object. *)
Lemma first_matching_row_wins_witness :
  let first := season_row "2025/2026" haaland_stats in
  let pdata := with_seasons [season_row "2023/2024" (JObj []); first;
                             season_row "2025" (JObj []); JNull] in
  seasonAgg pdata = Ok first /\ js_or first pdata = first.
Proof.
  intros first pdata.
  apply (first_matching_row_wins pdata [season_row "2023/2024" (JObj [])] first
           [season_row "2025" (JObj []); JNull]).
  - reflexivity.
  - apply List.Forall_cons; [reflexivity | apply List.Forall_nil].
  - reflexivity.
Defined.

(** X9.  Player data with a [stats] object that has no [seasons] is
    replaced by that object: the normalizer is given [pdata.stats] and
    looks for [stats], [games], [goals], [penalty] and [cards] inside it.
    When the numbers lie directly in [pdata.stats], the record is the
    zero record. *)
Theorem stats_member_replaces_player_data stn nm props sprops :
  assoc "stats" props = Some (JObj sprops) ->
  assoc "seasons" sprops = None ->
  seasonAgg (JObj props) = Ok (JObj sprops) /\
  js_or (JObj sprops) (JObj props) = JObj sprops /\
  (flat sprops ->
   toFantasyStat stn nm (js_or (JObj sprops) (JObj props)) = Ok (zero_stat nm)).
Proof.
  intros Hstats Hseasons. split; [| split].
  - unfold seasonAgg, seasons_find, opt_path, opt_member. simpl.
    rewrite Hstats. simpl. rewrite Hseasons. reflexivity.
  - reflexivity.
  - intros Hflat. apply toFantasyStat_flat. exact Hflat.
Qed.

(** The flat blob of the scenario, given as player data. *)
Lemma stats_member_replaces_player_data_witness :
  seasonAgg haaland_blob = Ok haaland_stats /\
  toFantasyStat decimal_literals (JStr "Erling Haaland") (js_or haaland_stats haaland_blob) =
    Ok (zero_stat (JStr "Erling Haaland")).
Proof.
  destruct (stats_member_replaces_player_data decimal_literals (JStr "Erling Haaland")
              [("stats", haaland_stats)]
              [("goals", num 20); ("penaltiesScored", num 5); ("assists", num 3);
               ("minutes", num 1500); ("yellow", num 2); ("red", num 0)]
              eq_refl eq_refl) as (Hagg & _ & Hzero).
  split; [exact Hagg|]. apply Hzero.
  unfold flat, namespaces. repeat (apply List.Forall_cons; [exact I|]). apply List.Forall_nil.
Defined.

(** ** Further properties of the handler *)

Lemma opt_member_truthy v k a :
  opt_member v k = Ok a -> truthy a = true -> get_member v k = Ok a.
Proof.
  unfold opt_member. destruct (nullish v); [| auto].
  intros [= <-]. discriminate.
Qed.

Section Turn.

Context {S : Type}.
Variable fotmob : Provider S.
Variable StringToNumber : string -> number.

Ltac run_turn :=
  intros log; unfold attempt, bind, call_search, call_player, lift; simpl;
  repeat match goal with
         | H : _ = _ |- _ => rewrite H; simpl
         end;
  rewrite <- ?app_assoc; reflexivity.

Lemma attempt_turn nm s : one_turn fotmob nm (attempt fotmob StringToNumber nm) s.
Proof.
  unfold one_turn.
  destruct (search fotmob nm s) as [rs s1] eqn:Hs.
  assert (K1 : keeps_no_state fotmob -> s1 = s).
  { intros K. destruct (K nm s) as [Hk _]. rewrite Hs in Hk. exact Hk. }
  destruct rs as [results | e].
  2: { exists (Throw e), s1, [CallSearch nm].
       split; [by left|]. split; [exact K1|]. run_turn. }
  destruct (best_of results) as [best | e] eqn:Hb.
  2: { exists (Throw e), s1, [CallSearch nm].
       split; [by left|]. split; [exact K1|]. run_turn. }
  destruct (opt_member best "id") as [id | e] eqn:Hid.
  2: { exists (Throw e), s1, [CallSearch nm].
       split; [by left|]. split; [exact K1|]. run_turn. }
  destruct (truthy id) eqn:Htr.
  2: { exists (toFantasyStat StringToNumber nm JNull), s1, [CallSearch nm].
       split; [by left|]. split; [exact K1|]. run_turn. }
  pose proof (opt_member_truthy best "id" id Hid Htr) as Hgm.
  destruct (player fotmob id s1) as [rp s2] eqn:Hp.
  assert (K2 : keeps_no_state fotmob -> s2 = s).
  { intros K. destruct (K id s1) as [_ Hk]. rewrite Hp in Hk. simpl in Hk.
    rewrite Hk. exact (K1 K). }
  assert (Hseg : turn_calls nm [CallSearch nm; CallPlayer id]).
  { right. exists id. split; [exact Htr | reflexivity]. }
  destruct rp as [pdata | e].
  2: { exists (Throw e), s2, [CallSearch nm; CallPlayer id].
       split; [exact Hseg|]. split; [exact K2|]. clear Hseg. run_turn. }
  destruct (seasonAgg pdata) as [agg | e] eqn:Ha.
  - exists (toFantasyStat StringToNumber nm (js_or agg pdata)), s2,
      [CallSearch nm; CallPlayer id].
    split; [exact Hseg|]. split; [exact K2|]. clear Hseg. run_turn.
  - exists (Throw e), s2, [CallSearch nm; CallPlayer id].
    split; [exact Hseg|]. split; [exact K2|]. clear Hseg. run_turn.
Qed.

Lemma loop_body_turn nm out s :
  one_turn fotmob nm (loop_body fotmob StringToNumber nm out) s.
Proof.
  destruct (attempt_turn nm s) as (r & s' & seg & Hseg & Hk & Hrun).
  unfold one_turn, loop_body, try_catch, bind, lift.
  destruct r as [st | e].
  - destruct (set_prop out nm st) as [o | e1] eqn:Hset.
    + exists (Ok o), s', seg. split; [exact Hseg|]. split; [exact Hk|].
      intros log. rewrite Hrun, Hset. reflexivity.
    + destruct (get_member e1 "message") as [msg | e2] eqn:Hmsg.
      * exists (set_prop out nm (zero_stat nm)), s', seg.
        split; [exact Hseg|]. split; [exact Hk|].
        intros log. rewrite Hrun, Hset, Hmsg. reflexivity.
      * exists (Throw e2), s', seg. split; [exact Hseg|]. split; [exact Hk|].
        intros log. rewrite Hrun, Hset, Hmsg. reflexivity.
  - destruct (get_member e "message") as [msg | e2] eqn:Hmsg.
    + exists (set_prop out nm (zero_stat nm)), s', seg.
      split; [exact Hseg|]. split; [exact Hk|].
      intros log. rewrite Hrun, Hmsg. reflexivity.
    + exists (Throw e2), s', seg. split; [exact Hseg|]. split; [exact Hk|].
      intros log. rewrite Hrun, Hmsg. reflexivity.
Qed.

Lemma for_of_turns names out s :
  exists r s' segs,
    batch_calls names segs /\
    (is_ok r = true -> length segs = length names) /\
    (keeps_no_state fotmob -> s' = s) /\
    forall log, for_of fotmob StringToNumber names out (mkWorld s log) =
                  (r, mkWorld s' (log ++ concat segs)).
Proof.
  revert out s. induction names as [| nm rest IH]; intros out s.
  - exists (Ok out), s, []. split; [constructor|]. split; [reflexivity|].
    split; [reflexivity|]. intros log. simpl. rewrite app_nil_r. reflexivity.
  - destruct (loop_body_turn nm out s) as (r1 & s1 & seg & Hseg & Hk1 & Hrun1).
    destruct r1 as [o | e].
    + destruct (IH o s1) as (r & s' & segs & Hb & Hok & Hk & Hrun).
      exists r, s', (seg :: segs). split; [| split; [| split]].
      * unfold batch_calls. simpl. constructor; [exact Hseg | exact Hb].
      * intros H. simpl. f_equal. exact (Hok H).
      * intros K. rewrite (Hk K). exact (Hk1 K).
      * intros log. simpl. unfold bind. rewrite Hrun1, Hrun.
        rewrite <- app_assoc. reflexivity.
    + exists (Throw e), s1, [seg]. split; [| split; [| split]].
      * unfold batch_calls. simpl. rewrite take_0. constructor; [exact Hseg | constructor].
      * discriminate.
      * exact Hk1.
      * intros log. simpl. unfold bind. rewrite Hrun1, app_nil_r. reflexivity.
Qed.

Lemma handler_turns req_body names s :
  players_of req_body = Ok names ->
  exists resp s' segs,
    batch_calls names segs /\
    (status resp = 200 -> length segs = length names) /\
    (keeps_no_state fotmob -> s' = s) /\
    forall log, handler fotmob StringToNumber req_body (mkWorld s log) =
                  (resp, mkWorld s' (log ++ concat segs)).
Proof.
  intros Hp. destruct names as [| nm rest].
  - exists {| status := 400; body := ErrorBody "players array required" |}, s, [].
    split; [constructor|]. split; [discriminate|]. split; [reflexivity|].
    intros log. unfold handler, handler_try, bind, lift. rewrite Hp. simpl.
    rewrite app_nil_r. reflexivity.
  - destruct (for_of_turns (nm :: rest) empty_out s) as (r & s' & segs & Hb & Hok & Hk & Hrun).
    destruct r as [out | e].
    + exists {| status := 200; body := StatsBody (own out) |}, s', segs.
      split; [exact Hb|]. split; [intros _; exact (Hok eq_refl)|]. split; [exact Hk|].
      intros log. unfold handler, handler_try, bind, lift. rewrite Hp.
      cbn [List.length Nat.eqb]. rewrite Hrun. reflexivity.
    + exists {| status := 500; body := ErrorBody "server_error" |}, s', segs.
      split; [exact Hb|]. split; [discriminate|]. split; [exact Hk|].
      intros log. unfold handler, handler_try, bind, lift. rewrite Hp.
      cbn [List.length Nat.eqb]. rewrite Hrun. reflexivity.
Qed.

Lemma batch_calls_length names segs :
  batch_calls names segs ->
  (length segs <= length names)%nat /\ (length (concat segs) <= 2 * length names)%nat.
Proof.
  unfold batch_calls. revert names. induction segs as [| seg segs IH]; intros names H.
  - simpl. lia.
  - destruct names as [| nm names]; simpl in H; [inversion H|].
    inversion H as [| ? ? ? ? Hseg Hrest]; subst.
    destruct (IH names Hrest) as [H1 H2]. simpl. rewrite length_app.
    assert (length seg <= 2)%nat.
    { destruct Hseg as [-> | (id & _ & ->)]; simpl; lia. }
    lia.
Qed.

End Turn.

(** X10.  The provider is called turn by turn in the order of the names:
    for each name one search with the name as it was sent, followed by at
    most one detail call, for a truthy identifier.  A response with
    status 200 has gone through every name, and no request causes more
    than two calls for each of its names. *)
Theorem calls_follow_names {S} (fotmob : Provider S) stn req_body names w :
  players_of req_body = Ok names ->
  exists segs : list (list Call),
    calls (snd (handler fotmob stn req_body w)) = (calls w ++ concat segs)%list /\
    batch_calls names segs /\
    (status (fst (handler fotmob stn req_body w)) = 200 -> length segs = length names) /\
    (length (concat segs) <= 2 * length names)%nat.
Proof.
  intros Hp. destruct w as [s log].
  destruct (handler_turns fotmob stn req_body names s Hp)
    as (resp & s' & segs & Hb & Hok & _ & Hrun).
  exists segs. rewrite (Hrun log). simpl.
  split; [reflexivity|]. split; [exact Hb|]. split; [exact Hok|].
  exact (proj2 (batch_calls_length names segs Hb)).
Qed.

Lemma calls_follow_names_witness :
  exists segs : list (list Call),
    calls (snd (handler second_detail_fails decimal_literals
                  (players_body ["a"; "b"; "c"]) (idle 0%nat))) = ([] ++ concat segs)%list /\
    batch_calls [JStr "a"; JStr "b"; JStr "c"] segs /\
    (status (fst (handler second_detail_fails decimal_literals
                    (players_body ["a"; "b"; "c"]) (idle 0%nat))) = 200 ->
     length segs = 3%nat) /\
    (length (concat segs) <= 6)%nat.
Proof.
  exact (calls_follow_names second_detail_fails decimal_literals
           (players_body ["a"; "b"; "c"]) [JStr "a"; JStr "b"; JStr "c"] (idle 0%nat) eq_refl).
Defined.

Section Names.

Context {S : Type}.
Variable fotmob : Provider S.
Variable StringToNumber : string -> number.

Lemma loop_body_unprintable nm out w :
  primitive_string nm = None ->
  exists e w', loop_body fotmob StringToNumber nm out w = (Throw e, w').
Proof.
  intros Hnm. unfold loop_body, try_catch, bind, lift, set_prop, to_string.
  rewrite Hnm. destruct (attempt fotmob StringToNumber nm w) as [[st | e] w']; simpl.
  - eauto.
  - destruct (get_member e "message"); simpl; eauto.
Qed.

Lemma for_of_unprintable names out w :
  Exists (fun nm => primitive_string nm = None) names ->
  exists e w', for_of fotmob StringToNumber names out w = (Throw e, w').
Proof.
  intros H. revert out w. induction H as [nm rest Hnm | nm rest _ IH]; intros out w; simpl;
    unfold bind.
  - destruct (loop_body_unprintable nm out w Hnm) as (e & w' & ->). eauto.
  - destruct (loop_body fotmob StringToNumber nm out w) as [[o | e] w1]; [apply IH | eauto].
Qed.

Lemma attempt_normalized nm w st w' :
  attempt fotmob StringToNumber nm w = (Ok st, w') ->
  exists fm, toFantasyStat StringToNumber nm fm = Ok st.
Proof.
  unfold attempt, bind, call_search, call_player, lift.
  destruct (search fotmob nm (pstate w)) as [[results | e1] s1]; [| discriminate].
  destruct (best_of results) as [best | e2]; [| discriminate].
  destruct (opt_member best "id") as [id | e3]; [| discriminate].
  destruct (truthy id); [simpl | cbn [negb]].
  - destruct (get_member best "id") as [id' | e6]; [| discriminate].
    destruct (player fotmob id' s1) as [[pdata | e4] s2]; [| discriminate].
    destruct (seasonAgg pdata) as [agg | e5]; [| discriminate].
    intros [= H _]. eauto.
  - rewrite toFantasyStat_null. intros [= <- _]. exists JNull. reflexivity.
Qed.

Lemma set_prop_normalized out nm st o :
  (forall k st', own out !! k = Some st' -> normalized_for StringToNumber k st') ->
  (exists fm, toFantasyStat StringToNumber nm fm = Ok st) ->
  set_prop out nm st = Ok o ->
  forall k st', own o !! k = Some st' -> normalized_for StringToNumber k st'.
Proof.
  intros Hout [fm Hfm] Hset k st'.
  destruct (toFantasyStat_fields StringToNumber nm fm st Hfm) as (Hname & _).
  revert Hset. unfold set_prop. destruct (to_string nm) as [k0 | e] eqn:Hk0; simpl;
    [| discriminate].
  intros [= <-]. destruct (String.eqb k0 "__proto__"); simpl; [apply Hout|].
  destruct (decide (k0 = k)) as [-> | Hne].
  - rewrite lookup_insert_eq. intros [= <-]. split.
    + rewrite Hname. exact Hk0.
    + exists fm. rewrite Hname. exact Hfm.
  - rewrite lookup_insert_ne by exact Hne. apply Hout.
Qed.

Lemma loop_body_normalized nm out w o w' :
  (forall k st', own out !! k = Some st' -> normalized_for StringToNumber k st') ->
  loop_body fotmob StringToNumber nm out w = (Ok o, w') ->
  forall k st', own o !! k = Some st' -> normalized_for StringToNumber k st'.
Proof.
  intros Hout. unfold loop_body, try_catch, bind, lift.
  assert (Hzero : exists fm, toFantasyStat StringToNumber nm fm = Ok (zero_stat nm))
    by (exists JNull; reflexivity).
  destruct (attempt fotmob StringToNumber nm w) as [[st | e] w1] eqn:Ha; cbn [obind].
  - destruct (set_prop out nm st) as [o1 | e1] eqn:Hs.
    + intros [= <- <-]. eapply set_prop_normalized; [exact Hout | | exact Hs].
      eapply attempt_normalized. exact Ha.
    + destruct (get_member e1 "message"); cbn [obind]; [| discriminate].
      rewrite toFantasyStat_null. cbn [obind].
      destruct (set_prop out nm (zero_stat nm)) as [o2 | e2] eqn:Hs2; [| discriminate].
      intros [= <- <-]. eapply set_prop_normalized; [exact Hout | exact Hzero | exact Hs2].
  - destruct (get_member e "message"); cbn [obind]; [| discriminate].
    rewrite toFantasyStat_null. cbn [obind].
    destruct (set_prop out nm (zero_stat nm)) as [o2 | e2] eqn:Hs2; [| discriminate].
    intros [= <- <-]. eapply set_prop_normalized; [exact Hout | exact Hzero | exact Hs2].
Qed.

Lemma for_of_normalized names out w o w' :
  (forall k st', own out !! k = Some st' -> normalized_for StringToNumber k st') ->
  for_of fotmob StringToNumber names out w = (Ok o, w') ->
  forall k st', own o !! k = Some st' -> normalized_for StringToNumber k st'.
Proof.
  revert out w. induction names as [| nm rest IH]; intros out w Hout; simpl.
  - intros [= <- <-]. exact Hout.
  - unfold bind.
    destruct (loop_body fotmob StringToNumber nm out w) as [[o1 | e] w1] eqn:Hl; [| discriminate].
    apply IH. eapply loop_body_normalized; [exact Hout | exact Hl].
Qed.

End Names.

(** X12.  A name that has no string form, an object with an own
    [toString], cannot be a key of [out]: the assignment throws in the
    [try] block and again in the [catch] block, and the request is
    answered with status 500, whatever the other names and whatever the
    provider does. *)
Theorem unprintable_name_fails_batch {S} (fotmob : Provider S) stn req_body names w :
  players_of req_body = Ok names ->
  Exists (fun nm => primitive_string nm = None) names ->
  fst (handler fotmob stn req_body w) =
    {| status := 500; body := ErrorBody "server_error" |}.
Proof.
  intros Hp Hex. unfold handler, handler_try, bind, lift. rewrite Hp.
  destruct names as [| nm rest]; [inversion Hex|]. cbn [List.length Nat.eqb].
  destruct (for_of_unprintable fotmob stn (nm :: rest) empty_out w Hex) as (e & w' & ->).
  reflexivity.
Qed.

Lemma unprintable_name_fails_batch_witness :
  fst (handler fotmob_stub decimal_literals
         (JObj [("players", JArr [JStr "Erling Haaland"; JObj [("toString", num 1)]])])
         (idle tt)) =
    {| status := 500; body := ErrorBody "server_error" |}.
Proof.
  apply (unprintable_name_fails_batch fotmob_stub decimal_literals _
           [JStr "Erling Haaland"; JObj [("toString", num 1)]] (idle tt)).
  - reflexivity.
  - apply Exists_cons_tl. apply Exists_cons_hd. reflexivity.
Defined.

(** X13.  For a request body that is an object, the answer has status
    400 exactly when [players] is missing, not an array, or empty: a
    list with at least one element, of whatever kind, is never refused. *)
Theorem status_400_iff {S} (fotmob : Provider S) stn req_body w :
  nullish req_body = false ->
  status (fst (handler fotmob stn req_body w)) = 400 <-> lacks_players req_body.
Proof.
  intros Hbody. split.
  - assert (Hread : exists p, get_member req_body "players" = Ok p).
    { destruct req_body; simpl; eauto; discriminate Hbody. }
    destruct Hread as [p Hp]. intros Hstatus. exists p. split; [exact Hp|].
    destruct p; try (right; left; intros items' H; discriminate H).
    destruct items as [| x xs]; [right; right; reflexivity|].
    revert Hstatus. unfold handler, handler_try, bind, lift, players_of. rewrite Hp.
    cbn [obind List.length Nat.eqb].
    destruct (for_of fotmob stn (x :: xs) empty_out w) as [[o | e] w']; discriminate.
  - intros H. unfold handler, handler_try, bind, lift.
    rewrite (players_of_lacking req_body H). reflexivity.
Qed.

Lemma status_400_iff_witness :
  lacks_players (JObj [("players", JStr "Erling Haaland")]) /\
  ~ lacks_players (JObj [("players", JArr [num 7])]).
Proof.
  split.
  - apply (status_400_iff fotmob_stub decimal_literals _ (idle tt)); reflexivity.
  - intros H.
    apply (status_400_iff fotmob_stub decimal_literals _ (idle tt)) in H; [| reflexivity].
    vm_compute in H. discriminate H.
Defined.

(** X14.  Every record of a response is one that the normalizer returned
    for some blob, and the string form of the name it carries is the key
    it is stored under. *)
Theorem entries_are_normalized {S} (fotmob : Provider S) stn req_body w m k st :
  body (fst (handler fotmob stn req_body w)) = StatsBody m ->
  m !! k = Some st ->
  normalized_for stn k st.
Proof.
  unfold handler, handler_try, bind, lift.
  destruct (players_of req_body) as [players | e]; simpl; [| discriminate].
  destruct (List.length players =? 0)%nat; simpl; [discriminate|].
  destruct (for_of fotmob stn players empty_out w) as [[o | e] w1] eqn:Hf; simpl;
    [| discriminate].
  intros [= <-]. revert k st. eapply for_of_normalized; [| exact Hf].
  intros k st H. simpl in H. rewrite lookup_empty in H. discriminate H.
Qed.

(** The name 7, a number, is stored under the key "7". *)
Lemma entries_are_normalized_witness :
  exists m st,
    body (fst (handler fotmob_stub decimal_literals
                 (JObj [("players", JArr [num 7])]) (idle tt))) = StatsBody m /\
    m !! "7" = Some st /\ name st = num 7 /\ normalized_for decimal_literals "7" st.
Proof.
  exists {["7" := haaland_stat (num 7)]}, (haaland_stat (num 7)).
  assert (Hb : body (fst (handler fotmob_stub decimal_literals
                            (JObj [("players", JArr [num 7])]) (idle tt))) =
               StatsBody {["7" := haaland_stat (num 7)]}) by (vm_compute; reflexivity).
  assert (Hl : ({["7" := haaland_stat (num 7)]} : gmap string FantasyStat) !! "7" =
               Some (haaland_stat (num 7))) by apply lookup_singleton_eq.
  split; [exact Hb|]. split; [exact Hl|]. split; [reflexivity|].
  exact (entries_are_normalized fotmob_stub decimal_literals _ (idle tt) _ "7" _ Hb Hl).
Defined.

(** X15.  Only the first candidate of a search counts.  When its
    identifier is falsy (missing, [null], 0 or the empty string), or the
    first candidate itself is, the name gets the zero record after the
    one search call: no detail call is made and no later candidate is
    tried. *)
Theorem falsy_id_is_no_candidate {S} (fotmob : Provider S) stn nm w results s' c rest id :
  search fotmob nm (pstate w) = (Ok results, s') ->
  get_member results "players" = Ok (JArr (c :: rest)) ->
  opt_member (js_or c JNull) "id" = Ok id ->
  truthy id = false ->
  attempt fotmob stn nm w =
    (Ok (zero_stat nm), {| pstate := s'; calls := calls w ++ [CallSearch nm] |}).
Proof.
  intros Hs Hplayers Hid Hfalsy.
  assert (Hbest : best_of results = Ok (js_or c JNull)).
  { unfold best_of, opt_member.
    destruct (nullish results) eqn:Hn; [destruct results; discriminate|].
    rewrite Hplayers. reflexivity. }
  unfold attempt, bind, call_search, lift. rewrite Hs, Hbest, Hid, Hfalsy. reflexivity.
Qed.

(** The first candidate has the identifier 0, the second a usable one. *)
Lemma falsy_id_is_no_candidate_witness :
  let results := JObj [("players", JArr [JObj [("id", num 0)]; JObj [("id", num 961995)]])] in
  attempt (answers results haaland_pdata) decimal_literals (JStr "Erling Haaland") (idle tt) =
    (Ok (zero_stat (JStr "Erling Haaland")),
     {| pstate := tt; calls := [CallSearch (JStr "Erling Haaland")] |}).
Proof.
  intros results.
  apply (falsy_id_is_no_candidate (answers results haaland_pdata) decimal_literals
           (JStr "Erling Haaland") (idle tt) results tt
           (JObj [("id", num 0)]) [JObj [("id", num 961995)]] (num 0)); reflexivity.
Defined.

Lemma settle_all_app {S} (fotmob : Provider S) stn (ks1 ks2 : list string) w :
  settle_all fotmob stn (ks1 ++ ks2) w =
    ((fst (settle_all fotmob stn ks1 w) ++
      fst (settle_all fotmob stn ks2 (snd (settle_all fotmob stn ks1 w))))%list,
     snd (settle_all fotmob stn ks2 (snd (settle_all fotmob stn ks1 w)))).
Proof.
  revert w. induction ks1 as [| k ks1 IH]; intros w; simpl.
  - destruct (settle_all fotmob stn ks2 w). reflexivity.
  - destruct (settle fotmob stn (JStr k) w) as [st w1]. rewrite IH.
    destruct (settle_all fotmob stn ks1 w1) as [l1 w2]. simpl.
    destruct (settle_all fotmob stn ks2 w2) as [l2 w3]. reflexivity.
Qed.

(** X16.  A batch of string names against a provider that never rejects
    with [undefined] or [null] is answered with status 200 and one key
    for every name other than [__proto__].  The record under a key is the
    one of the last turn for that name: what its [try] block produced, or
    the zero record when the block threw, in the world that the turns
    before it left. *)
Theorem last_turn_decides_entry {S} (fotmob : Provider S) stn (ks1 ks2 : list string) k w :
  rejects_with_values fotmob ->
  k <> "__proto__" -> k ∉ ks2 ->
  exists m,
    fst (handler fotmob stn (players_body (ks1 ++ k :: ks2)) w) =
      {| status := 200; body := StatsBody m |} /\
    dom m = list_to_set (ks1 ++ k :: ks2) ∖ {["__proto__"]} /\
    m !! k = Some (fst (settle fotmob stn (JStr k) (snd (settle_all fotmob stn ks1 w)))).
Proof.
  intros Hprov Hk Hnot.
  destruct (handler_strings fotmob stn (players_body (ks1 ++ k :: ks2)) (ks1 ++ k :: ks2) w
              Hprov eq_refl) as (m & Hrun & Hdom & Hlast).
  { destruct ks1; discriminate. }
  exists m. rewrite Hrun. split; [reflexivity|]. split; [exact Hdom|].
  apply (Hlast (fst (settle_all fotmob stn ks1 w))
               (fst (settle_all fotmob stn ks2
                       (snd (settle fotmob stn (JStr k) (snd (settle_all fotmob stn ks1 w))))))).
  - rewrite settle_all_app. simpl.
    destruct (settle fotmob stn (JStr k) (snd (settle_all fotmob stn ks1 w))) as [st w1].
    simpl. destruct (settle_all fotmob stn ks2 w1). reflexivity.
  - exact Hk.
  - rewrite settle_all_keys. exact Hnot.
Qed.

Lemma second_detail_fails_rejects_with_values : rejects_with_values second_detail_fails.
Proof.
  intros arg n e s' [H | H]; simpl in H.
  - discriminate H.
  - destruct (n =? 1)%nat; [| discriminate H]. injection H as <- _. reflexivity.
Qed.

(** The same name twice: the second turn, whose detail call fails,
    decides. *)
Lemma last_turn_decides_entry_witness :
  exists m,
    fst (handler second_detail_fails decimal_literals (players_body ["a"; "a"]) (idle 0%nat)) =
      {| status := 200; body := StatsBody m |} /\
    m !! "a" = Some (zero_stat (JStr "a")).
Proof.
  destruct (last_turn_decides_entry second_detail_fails decimal_literals ["a"] [] "a"
              (idle 0%nat) second_detail_fails_rejects_with_values)
    as (m & Hrun & _ & Hm).
  - discriminate.
  - apply not_elem_of_nil.
  - exists m. split; [exact Hrun|]. rewrite Hm. reflexivity.
Defined.

(** X17.  A season list with [null] or [undefined] in it ahead of any
    row of 2025 cannot be searched: reading [season] of that entry
    throws, the turn is caught after its two calls, and the player gets
    the zero record although the rows that follow hold the numbers. *)
Theorem null_row_costs_the_player {S} (fotmob : Provider S) stn k out w
    results best id pdata pre bad post s1 s2 :
  search fotmob (JStr k) (pstate w) = (Ok results, s1) ->
  best_of results = Ok best ->
  opt_member best "id" = Ok id ->
  truthy id = true ->
  player fotmob id s1 = (Ok pdata, s2) ->
  opt_path pdata "stats" "seasons" = Ok (JArr (pre ++ bad :: post)) ->
  Forall (fun s => season_matches s = Ok false) pre ->
  nullish bad = true ->
  loop_body fotmob stn (JStr k) out w =
    (Ok (store out k (zero_stat (JStr k))),
     {| pstate := s2; calls := calls w ++ [CallSearch (JStr k); CallPlayer id] |}).
Proof.
  intros Hs Hbest Hid Htruthy Hp Hseasons Hpre Hbad.
  pose proof (opt_member_truthy best "id" id Hid Htruthy) as Hgm.
  assert (Hagg : exists msg, seasonAgg pdata = Throw (TypeError msg)).
  { unfold seasonAgg, seasons_find. rewrite Hseasons. cbn [obind].
    rewrite (find_season_skips pre (bad :: post) Hpre). cbn [find_season].
    unfold season_matches. destruct bad; try discriminate Hbad; simpl; eauto. }
  destruct Hagg as [msg Hagg].
  unfold loop_body, try_catch, bind, attempt, bind, call_search, call_player, lift.
  rewrite Hs, Hbest, Hid, Htruthy. cbn [negb]. rewrite Hgm. simpl. rewrite Hp, Hagg.
  simpl. rewrite <- app_assoc. reflexivity.
Qed.

Lemma null_row_costs_the_player_witness :
  let pdata := with_seasons [season_row "2023/2024" (JObj []); JNull;
                             season_row "2025/2026" haaland_stats] in
  loop_body (always pdata) decimal_literals (JStr "Erling Haaland") empty_out (idle tt) =
    (Ok (store empty_out "Erling Haaland" (zero_stat (JStr "Erling Haaland"))),
     {| pstate := tt;
        calls := [CallSearch (JStr "Erling Haaland"); CallPlayer (JStr "Erling Haaland")] |}).
Proof.
  intros pdata.
  apply (null_row_costs_the_player (always pdata) decimal_literals "Erling Haaland" empty_out
           (idle tt) (candidate (JStr "Erling Haaland"))
           (JObj [("id", JStr "Erling Haaland")]) (JStr "Erling Haaland") pdata
           [season_row "2023/2024" (JObj [])] JNull
           [season_row "2025/2026" haaland_stats] tt tt); try reflexivity.
  apply List.Forall_cons; [reflexivity | apply List.Forall_nil].
Defined.

(** X18.  When the season list can be read and holds no row of 2025, the
    blob that is normalized is [pdata.stats], the object that holds the
    list: no row of another season is used in its place. *)
Theorem no_row_of_2025_falls_back_to_stats pdata rows :
  opt_path pdata "stats" "seasons" = Ok (JArr rows) ->
  Forall (fun s => season_matches s = Ok false) rows ->
  exists sprops,
    get_member pdata "stats" = Ok (JObj sprops) /\
    seasonAgg pdata = Ok (JObj sprops) /\
    js_or (JObj sprops) pdata = JObj sprops.
Proof.
  intros Hseasons Hrows.
  assert (Hstats : exists sprops, opt_member pdata "stats" = Ok (JObj sprops) /\
                                  get_member pdata "stats" = Ok (JObj sprops)).
  { revert Hseasons. unfold opt_path.
    destruct (opt_member pdata "stats") as [a | e] eqn:Ha; simpl; [| discriminate].
    assert (Hobj : forall b, opt_member a "seasons" = Ok (JArr b) -> exists p, a = JObj p).
    { intros b. unfold opt_member. destruct a; simpl; try discriminate; eauto. }
    intros H. destruct (Hobj rows H) as [p ->]. exists p. split; [reflexivity|].
    apply opt_member_truthy; [exact Ha | reflexivity]. }
  destruct Hstats as (sprops & Hopt & Hget). exists sprops.
  split; [exact Hget|]. split; [| reflexivity].
  unfold seasonAgg, seasons_find. rewrite Hseasons. cbn [obind].
  rewrite <- (app_nil_r rows), (find_season_skips rows [] Hrows). cbn [find_season obind].
  rewrite Hopt. reflexivity.
Qed.

(** Rows of two earlier seasons only. *)
Lemma no_row_of_2025_falls_back_to_stats_witness :
  let rows := [season_row "2022/2023" haaland_stats; season_row "2023/2024" haaland_stats] in
  seasonAgg (with_seasons rows) = Ok (JObj [("seasons", JArr rows)]).
Proof.
  intros rows.
  destruct (no_row_of_2025_falls_back_to_stats (with_seasons rows) rows) as (sprops & Hget & Hagg & _).
  - reflexivity.
  - repeat (apply List.Forall_cons; [reflexivity|]). apply List.Forall_nil.
  - rewrite Hagg. injection Hget as <-. reflexivity.
Defined.
